(** * react-native-spotlight-tour: the tour overlay

    A shallow embedding of [TourOverlay] (src/index.ts, the overlay
    component): the spot geometry, the mask element, the two tooltip
    placement policies, the backdrop press handler and [hideTip].

    Numbers.  A JavaScript [number] is a finite double, modelled by the
    rational [Q] it denotes; [Math.round] and [Math.max], which are exact
    on doubles, are written out over [Q].  The component [TourOverlay]
    is modelled with [+], [-], [*] and [/] read exactly.  That reading
    and the program's agree where the operations are exact on doubles,
    as the additions, subtractions and halvings of the rectangle policy
    are on whole-number layouts; they part where the radius is multiplied
    by [1.15], which is no double.  The spotlight policy is therefore
    modelled a second time with the arithmetic left open ([Spotlight]),
    to be read exactly, which gives back the functions of [TourOverlay],
    or with the rounding of binary64 after every operation ([Binary64]),
    which is what the program computes.  [NaN], the infinities and
    overflow are outside the model.

    Equality.  Results built by the code are compared with Leibniz
    equality when the two sides are the same expression of the inputs,
    and with [Qeq] ([==]) when a numeral is involved. *)

From Stdlib Require Import QArith Qround Qminmax ZArith List String Bool Lia Lqa.
Import ListNotations.

Local Open Scope Q_scope.

(** ** JavaScript primitives *)

Module Js.

(** [a ?? b]: [b] when [a] is [undefined] (or [null]), [a] otherwise. *)
Definition nullish {A : Type} (a : option A) (b : A) : A :=
  match a with
  | Some v => v
  | None => b
  end.

(** [Math.max(a, b)] on two numbers. *)
Definition Math_max (a b : Q) : Q :=
  if Qle_bool a b then b else a.

(** [Math.round(v)]: the integer nearest to [v], a tie going up, that is
    [floor(v + 1/2)]. *)
Definition Math_round (v : Q) : Q :=
  inject_Z (Qfloor (v + (1 # 2))).

(** [Number.isInteger(v)]. *)
Definition isInteger (v : Q) : bool :=
  Qeq_bool v (inject_Z (Qfloor v)).

(** [xs[i]] for a numeric index: [undefined] out of range. *)
Definition index {A : Type} (xs : list A) (i : Z) : option A :=
  if (i <? 0)%Z then None else nth_error xs (Z.to_nat i).

(** The state of a promise; [Rejected None] is a rejection whose reason
    is [undefined]. *)
Inductive PromiseState : Type :=
| Pending
| Fulfilled
| Rejected (reason : option string).

(** [resolve()] and [reject(reason)] settle a pending promise and leave a
    settled one as it is. *)
Definition resolve (p : PromiseState) : PromiseState :=
  match p with
  | Pending => Fulfilled
  | _ => p
  end.

Definition reject (reason : option string) (p : PromiseState) : PromiseState :=
  match p with
  | Pending => Rejected reason
  | _ => p
  end.

End Js.

Notation "a ?? b" := (Js.nullish a b) (at level 45, left associativity).

(** ** Double precision *)

(** Rounding of a rational to the nearest double, a tie going to the even
    mantissa, as binary64 rounds the exact result of an operation.  The
    exponent is bounded below (subnormal numbers) and not above. *)
Module Binary64.

(** The integer part of the binary logarithm of [a / d]. *)
Definition floor_log2 (a d : positive) : Z :=
  let e0 := (Z.log2 (Z.pos a) - Z.log2 (Z.pos d))%Z in
  let below :=
    if (0 <=? e0)%Z
    then (Z.pos a <? Z.pos d * 2 ^ e0)%Z
    else (Z.pos a * 2 ^ (- e0) <? Z.pos d)%Z in
  if below then (e0 - 1)%Z else e0.

(** [n / d] rounded to the nearest integer, a tie to the even one. *)
Definition nearest_even (n d : Z) : Z :=
  let q := (n / d)%Z in
  let r := (n mod d)%Z in
  match (2 * r ?= d)%Z with
  | Lt => q
  | Gt => (q + 1)%Z
  | Eq => if Z.even q then q else (q + 1)%Z
  end.

(** [m * 2 ^ k]. *)
Definition scale (m k : Z) : Q :=
  if (0 <=? k)%Z then inject_Z (m * 2 ^ k)
  else Qmake m (Z.to_pos (2 ^ (- k))).

(** The double nearest to [q]: a mantissa of 53 bits at the exponent of
    [q], or at the least exponent, -1074. *)
Definition fl (q : Q) : Q :=
  match Qnum q with
  | Z0 => 0
  | Zpos a | Zneg a =>
      let k := Z.max (floor_log2 a (Qden q) - 52) (-1074) in
      let m :=
        if (0 <=? k)%Z
        then nearest_even (Z.pos a) (Z.pos (Qden q) * 2 ^ k)
        else nearest_even (Z.pos a * 2 ^ (- k)) (Z.pos (Qden q)) in
      Qred (scale (match Qnum q with Zneg _ => - m | _ => m end)%Z k)
  end.

End Binary64.

(** The arithmetic of the program's expressions: the four operations and
    the value of a decimal numeral such as [1.15].  Whole numerals such
    as [2] and [100] are themselves in either reading. *)
Module Arith.

Record ops : Type := {
  add : Q -> Q -> Q;
  sub : Q -> Q -> Q;
  mul : Q -> Q -> Q;
  div : Q -> Q -> Q;
  numeral : Q -> Q
}.

(** Every operation exact. *)
Definition exact : ops :=
  {| add := Qplus;
     sub := Qminus;
     mul := Qmult;
     div := Qdiv;
     numeral := fun q => q |}.

(** Every operation rounded to the nearest double, as the program
    computes on doubles. *)
Definition binary64 : ops :=
  {| add := fun a b => Binary64.fl (a + b);
     sub := fun a b => Binary64.fl (a - b);
     mul := fun a b => Binary64.fl (a * b);
     div := fun a b => Binary64.fl (a / b);
     numeral := Binary64.fl |}.

End Arith.

(** ** The tour's types (lib/SpotlightTour.context) *)

(** Modelled from the spec: the declarations of the enums [Align],
    [Position], [Shape] and [Motion] are in lib/SpotlightTour.context,
    which is not part of the source at hand.  The members are those the
    overlay names ([Align.SPOT], [Position.BOTTOM], [Shape.RECTANGLE],
    [Motion.FADING], ...) and those section 3 of the specification
    lists. *)
Inductive Align : Type := SPOT | CENTER.
Inductive Position : Type := BOTTOM | LEFT | RIGHT | TOP.
Inductive Shape : Type := SPOTLIGHT | RECTANGLE.
Inductive Motion : Type := SLIDING | FADING.

(** What a field declared with an enum type [E] holds when the program
    runs: types are erased, so the value is a member of [E] or something
    that is strictly equal ([===]) to none of its members. *)
Inductive Runtime (E : Type) : Type :=
| member (e : E)
| foreign (raw : string).

Arguments member {E} e.
Arguments foreign {E} raw.

Definition Align_eqb (a b : Align) : bool :=
  match a, b with
  | SPOT, SPOT | CENTER, CENTER => true
  | _, _ => false
  end.

(** [LayoutRectangle] of react-native: a measured rectangle. *)
Record LayoutRectangle : Type := {
  x : Q;
  y : Q;
  width : Q;
  height : Q
}.

(** Modelled from the spec: [RectangleProps], the type of a step's
    [shapeProperties] (declared in lib/SpotlightTour.context); each
    attribute may be left out, as the defaults of the overlay's
    destructuring show. *)
Module RectangleProps.
Record t : Type := {
  borderWidth : option Q;
  horizontalRadius : option Q;
  verticalRadius : option Q
}.
End RectangleProps.

(** The calls a handler can make on the tour. *)
Inductive TourCall : Type := next | previous | stop.

(** The argument of a step's [render]; [next], [previous] and [stop] are
    the tour's own and are handed over as they are. *)
Module RenderProps.
Record t : Type := {
  current : Z;
  isFirst : bool;
  isLast : bool
}.
End RenderProps.

(** Modelled from the spec: [TourStep] (declared in
    lib/SpotlightTour.context), with the attributes the overlay reads;
    [None] is an attribute left out. *)
Module TourStep.
Record t (ReactNode : Type) : Type := {
  alignTo : option Align;
  position : Runtime Position;
  shape : option Shape;
  motion : option Motion;
  shapeProperties : option RectangleProps.t;
  render : RenderProps.t -> ReactNode
}.
Arguments alignTo {ReactNode} _.
Arguments position {ReactNode} _.
Arguments shape {ReactNode} _.
Arguments motion {ReactNode} _.
Arguments shapeProperties {ReactNode} _.
Arguments render {ReactNode} _ _.
End TourStep.

(** Modelled from the spec: [SpotlightTourCtx] (declared in
    lib/SpotlightTour.context), the part of the tour the overlay reads;
    its [next], [previous] and [stop] are the calls of [TourCall]. *)
Module SpotlightTourCtx.
Record t (ReactNode : Type) : Type := {
  current : option Z;
  spot : option LayoutRectangle;
  steps : list (TourStep.t ReactNode)
}.
Arguments current {ReactNode} _.
Arguments spot {ReactNode} _.
Arguments steps {ReactNode} _.
End SpotlightTourCtx.

(** ** What the overlay hands to the presentation layer *)

(** The animated values the component creates with [useState]. *)
Inductive AnimatedValue : Type :=
| radius
| center_x
| center_y
| rectCoordinates_x
| rectCoordinates_y
| componentOpacity.

(** A numeric attribute of an element: a number, or an animated value. *)
Inductive NumberProp : Type :=
| Num (v : Q)
| Animated (a : AnimatedValue).

Module Circle.
Record props : Type := {
  r : NumberProp;
  cx : NumberProp;
  cy : NumberProp;
  opacity : option NumberProp;
  fill : string
}.
End Circle.

Module Rect.
Record props : Type := {
  x : NumberProp;
  y : NumberProp;
  opacity : option NumberProp;
  width : Q;
  height : Q;
  rx : Q;
  ry : Q;
  fill : string
}.
End Rect.

(** The elements the mask can hold. *)
Inductive Element : Type :=
| AnimatedCircle (p : Circle.props)
| AnimatedRect (p : Rect.props).

(** A style value that is a number or a string such as ["2%"]. *)
Inductive DimensionValue : Type :=
| dim_number (n : Q)
| dim_string (s : string).

(** The attributes of [ViewStyle] the placement functions set. *)
Record ViewStyle : Type := {
  left : Q;
  top : Q;
  marginTop : option DimensionValue;
  marginBottom : option DimensionValue;
  marginLeft : option DimensionValue;
  marginRight : option DimensionValue
}.

(** The animations the component builds: what is animated, how, and to
    which value.  [Animated.parallel] of several is their list. *)
Inductive AnimatedTarget : Type :=
| on_value (a : AnimatedValue)
| on_xy (ax ay : AnimatedValue).

Inductive ToValue : Type :=
| to_number (v : Q)
| to_xy (vx vy : Q).

Inductive Animation : Type :=
| spring (target : AnimatedTarget) (damping mass stiffness : Q)
         (toValue : ToValue)
| timing (target : AnimatedTarget) (delay : option Q) (duration : Q)
         (toValue : ToValue).

(** The argument of an animation's end callback. *)
Record EndResult : Type := { finished : bool }.

Inductive Color : Type :=
| color_string (s : string)
| color_number (n : Q)
| color_rgba (c : list Q).

(** [opacity?: number | string]. *)
Inductive NumberOrString : Type :=
| a_number (n : Q)
| a_string (s : string).

(** ** The component *)

Module TourOverlay.

Section Component.

(** What a step's [render] returns. *)
Variable ReactNode : Type.

(** [vwDP] of helpers/responsive, which is not part of the source at
    hand: [vwDP(100)] is the width of the viewport. *)
Variable vwDP : Q -> Q.

Record TourOverlayProps : Type := {
  color : option Color;
  opacity : option NumberOrString;
  tour : SpotlightTourCtx.t ReactNode;
  shouldContinueOnBackdropPress : option bool
}.

(** The state the component keeps with [useState]: [tourStep] is
    [steps[current]] as it was when the state was last set, [None]
    when that was [undefined]. *)
Record Hooks : Type := {
  tourStep : option (TourStep.t ReactNode);
  tipStyle : option ViewStyle
}.

(** The constant [shapeProperties] of the file. *)
Definition shapeProperties : RectangleProps.t :=
  {| RectangleProps.borderWidth := Some 0;
     RectangleProps.horizontalRadius := Some 0;
     RectangleProps.verticalRadius := Some 0 |}.

(** [current === steps.length - 1]; [undefined] equals no number. *)
Definition isLastStep (current : option Z)
           (steps : list (TourStep.t ReactNode)) : bool :=
  match current with
  | Some c => (c =? Z.of_nat (List.length steps) - 1)%Z
  | None => false
  end.

(** *** The body of the component after its guard

    The names the body binds, each a function of the names it reads. *)
Section Body.

Variable spot : LayoutRectangle.
Variable tourStep : TourStep.t ReactNode.

Definition shape : Shape :=
  TourStep.shape tourStep ?? SPOTLIGHT.

Definition borderWidth : Q :=
  RectangleProps.borderWidth
    (TourStep.shapeProperties tourStep ?? shapeProperties) ?? 0.

Definition horizontalRadius : Q :=
  RectangleProps.horizontalRadius
    (TourStep.shapeProperties tourStep ?? shapeProperties) ?? 0.

Definition verticalRadius : Q :=
  RectangleProps.verticalRadius
    (TourStep.shapeProperties tourStep ?? shapeProperties) ?? 0.

(** [r], [cx] and [cy] with the operations read exactly; [Spotlight.r]
    and the like leave the arithmetic open. *)
Definition r : Q :=
  (Js.Math_max (width spot) (height spot) / 2) * (115 # 100).

Definition cx : Q := x spot + (width spot / 2).

Definition cy : Q := y spot + (height spot / 2).

Definition rectWidth : Q := width spot + 2 * borderWidth.

Definition rectHeight : Q := height spot + 2 * borderWidth.

Definition rectX : Q := x spot - borderWidth.

Definition rectY : Q := y spot - borderWidth.

Definition motion : Motion :=
  TourStep.motion tourStep ?? SLIDING.

(** The two tables keyed by [Motion], read at [motion]. *)
Definition circleProperties
  : NumberProp * NumberProp * NumberProp * option NumberProp :=
  match motion with
  | SLIDING =>
      (Animated radius, Animated center_x, Animated center_y, None)
  | FADING =>
      (Num r, Num cx, Num cy, Some (Animated componentOpacity))
  end.

Definition rectProperties
  : NumberProp * NumberProp * option NumberProp :=
  match motion with
  | SLIDING =>
      (Animated rectCoordinates_x, Animated rectCoordinates_y, None)
  | FADING =>
      (Num rectX, Num rectY, Some (Animated componentOpacity))
  end.

(** The table keyed by [Shape], read at [shape]. *)
Definition MaskElement : Element :=
  match shape with
  | SPOTLIGHT =>
      let '(pr, pcx, pcy, po) := circleProperties in
      AnimatedCircle
        {| Circle.r := pr;
           Circle.cx := pcx;
           Circle.cy := pcy;
           Circle.opacity := po;
           Circle.fill := "black" |}
  | RECTANGLE =>
      let '(px, py, po) := rectProperties in
      AnimatedRect
        {| Rect.x := px;
           Rect.y := py;
           Rect.opacity := po;
           Rect.width := rectWidth;
           Rect.height := rectHeight;
           Rect.rx := horizontalRadius;
           Rect.ry := verticalRadius;
           Rect.fill := "black" |}
  end.

(** [backdropPressHandler]: the call a press on the backdrop makes,
    [None] when it returns without one. *)
Definition backdropPressHandler (shouldContinueOnBackdropPress : bool)
           (isLastStep : bool) : option TourCall :=
  if negb shouldContinueOnBackdropPress then None
  else Some (if isLastStep then stop else next).

(** [align], which each of the two placement functions binds, to
    the same expression. *)
Definition align : Align :=
  TourStep.alignTo tourStep ?? SPOT.

(** [getSpotlightTipStyles]; [None] is [undefined], what the function
    returns when its [switch] has no case for the position. *)
Definition getSpotlightTipStyles (tipLayout : LayoutRectangle)
  : option ViewStyle :=
  let tipMargin := dim_string "2%" in
  let align := align in
  match TourStep.position tourStep with
  | member BOTTOM =>
      Some {| left := if Align_eqb align SPOT
                      then Js.Math_round (cx - (width tipLayout / 2))
                      else Js.Math_round
                             ((vwDP 100 - width tipLayout) / 2);
              marginTop := Some tipMargin;
              top := Js.Math_round (cy + r);
              marginBottom := None;
              marginLeft := None;
              marginRight := None |}
  | member TOP =>
      Some {| left := if Align_eqb align SPOT
                      then Js.Math_round (cx - (width tipLayout / 2))
                      else Js.Math_round
                             ((vwDP 100 - width tipLayout) / 2);
              marginBottom := Some tipMargin;
              top := Js.Math_round (cy - r - height tipLayout);
              marginTop := None;
              marginLeft := None;
              marginRight := None |}
  | member LEFT =>
      Some {| left := Js.Math_round (cx - r - width tipLayout);
              marginRight := Some tipMargin;
              top := Js.Math_round (cy - (height tipLayout / 2));
              marginTop := None;
              marginBottom := None;
              marginLeft := None |}
  | member RIGHT =>
      Some {| left := Js.Math_round (cx + r);
              marginLeft := Some tipMargin;
              top := Js.Math_round (cy - (height tipLayout / 2));
              marginTop := None;
              marginBottom := None;
              marginRight := None |}
  | foreign _ => None
  end.

(** The [center] that [getRectangleTipStyles] binds: the centre of
    the rectangle, each coordinate rounded. *)
Definition rectCenter : Q * Q :=
  (Js.Math_round (rectX + rectWidth / 2),
   Js.Math_round (rectY + rectHeight / 2)).

(** [getRectangleTipStyles]. *)
Definition getRectangleTipStyles (tipLayout : LayoutRectangle)
  : option ViewStyle :=
  let tipMargin := 10 in
  let align := align in
  let center := rectCenter in
  match TourStep.position tourStep with
  | member BOTTOM =>
      Some {| left := if Align_eqb align SPOT
                      then Js.Math_round
                             (fst center - width tipLayout / 2)
                      else Js.Math_round
                             ((vwDP 100 - width tipLayout) / 2);
              marginTop := Some (dim_number tipMargin);
              top := Js.Math_round (rectY + rectHeight);
              marginBottom := None;
              marginLeft := None;
              marginRight := None |}
  | member TOP =>
      Some {| left := if Align_eqb align SPOT
                      then Js.Math_round
                             (fst center - width tipLayout / 2)
                      else Js.Math_round
                             ((vwDP 100 - width tipLayout) / 2);
              marginBottom := Some (dim_number tipMargin);
              top := Js.Math_round
                       (rectY - height tipLayout - tipMargin);
              marginTop := None;
              marginLeft := None;
              marginRight := None |}
  | member LEFT =>
      Some {| left := Js.Math_round (rectX - width tipLayout);
              marginRight := Some (dim_number tipMargin);
              top := Js.Math_round
                       (snd center - height tipLayout / 2);
              marginTop := None;
              marginBottom := None;
              marginLeft := None |}
  | member RIGHT =>
      Some {| left := Js.Math_round (rectX + rectWidth);
              marginLeft := Some (dim_number tipMargin);
              top := Js.Math_round
                       (snd center - height tipLayout / 2);
              marginTop := None;
              marginBottom := None;
              marginRight := None |}
  | foreign _ => None
  end.

(** [measureTip]: the style it hands to [setTipStyle], for the
    layout of the event. *)
Definition measureTip (layout : LayoutRectangle) : option ViewStyle :=
  match shape with
  | SPOTLIGHT => getSpotlightTipStyles layout
  | RECTANGLE => getRectangleTipStyles layout
  end.

(** [moveIn], the animation the effect builds and starts. *)
Definition moveIn : list Animation :=
  [ spring (on_xy center_x center_y) 50 5 300 (to_xy cx cy);
    spring (on_value radius) 30 5 300 (to_number r);
    spring (on_xy rectCoordinates_x rectCoordinates_y) 50 5 300
           (to_xy rectX rectY);
    timing (on_value componentOpacity) (Some 500) 500 (to_number 1) ].

End Body.

(** *** The component function *)

(** The element tree the component returns, by its variable parts:
    the mask's element, the tinted rectangle's [fill] and [opacity],
    the backdrop's [onPress], and the tip view's [onLayout], [style]
    and children. *)
Record View : Type := {
  maskElement : Element;
  rectFill : Color;
  rectOpacity : NumberOrString;
  onPress : option TourCall;
  onLayout : LayoutRectangle -> option ViewStyle;
  tipViewStyle : option ViewStyle * NumberProp;
  children : ReactNode
}.

(** A render returns [null], or an element tree, or throws the
    [TypeError] of reading an attribute of [undefined]. *)
Inductive Rendering : Type :=
| Null
| Throws
| Rendered (v : View).

(** The result of a render and the arguments of the calls it made to
    a step's [render], in order. *)
Record Outcome : Type := {
  output : Rendering;
  renderCalls : list RenderProps.t
}.

(** The component function.  [hooks] is the state kept from the
    previous render, [None] on the render that mounts the hooks, where
    [useState(steps[current])] sets [tourStep]. *)
Definition render (props : TourOverlayProps) (hooks : option Hooks)
  : Outcome :=
  let color := color props ?? color_string "black" in
  let opacity := opacity props ?? a_number (45 # 100) in
  let tour := tour props in
  let shouldContinueOnBackdropPress :=
    shouldContinueOnBackdropPress props ?? false in
  let current := SpotlightTourCtx.current tour in
  let spot := SpotlightTourCtx.spot tour in
  let steps := SpotlightTourCtx.steps tour in
  let isLastStep := isLastStep current steps in
  match spot, current with
  | Some spot, Some current =>
      let hooks :=
        match hooks with
        | Some h => h
        | None => {| tourStep := Js.index steps current;
                     tipStyle := None |}
        end in
      match tourStep hooks with
      | None => {| output := Throws; renderCalls := [] |}
      | Some tourStep =>
          let renderProps :=
            {| RenderProps.current := current;
               RenderProps.isFirst := (current =? 0)%Z;
               RenderProps.isLast := isLastStep |} in
          {| output :=
               Rendered
                 {| maskElement := MaskElement spot tourStep;
                    rectFill := color;
                    rectOpacity := opacity;
                    onPress :=
                      backdropPressHandler
                        shouldContinueOnBackdropPress isLastStep;
                    onLayout := measureTip spot tourStep;
                    tipViewStyle :=
                      (tipStyle hooks, Animated componentOpacity);
                    children :=
                      TourStep.render tourStep renderProps |};
             renderCalls := [renderProps] |}
      end
  | _, _ => {| output := Null; renderCalls := [] |}
  end.

(** [setTourStep] and [setTipStyle]: the state with one part replaced. *)
Definition setTourStep (step : option (TourStep.t ReactNode))
           (hooks : Hooks) : Hooks :=
  {| tourStep := step; tipStyle := tipStyle hooks |}.

Definition setTipStyle (style : option ViewStyle) (hooks : Hooks)
  : Hooks :=
  {| tourStep := tourStep hooks; tipStyle := style |}.

(** The effect that runs when [spot] or [current] has changed: it
    builds [moveIn], stops it, which does nothing to an animation that
    has not started, and calls [setTourStep(steps[current])].  The state
    it leaves. *)
Definition effect (current : Z) (steps : list (TourStep.t ReactNode))
           (hooks : Hooks) : Hooks :=
  setTourStep (Js.index steps current) hooks.

(** The callback the effect hands to [setTimeout], which runs later:
    [setTipStyle(undefined)] and [moveIn.start()], with the [moveIn] of
    the render the effect belongs to, whose spot and step are [spot] and
    [tourStep].  The state it leaves and the animation it starts. *)
Definition effect_timeout (spot : LayoutRectangle)
           (tourStep : TourStep.t ReactNode) (hooks : Hooks)
  : Hooks * list Animation :=
  (setTipStyle None hooks, moveIn spot tourStep).

(** *** [hideTip] *)

(** The animation [hideTip] starts. *)
Definition hideTip_animation : Animation :=
  timing (on_value componentOpacity) None 200 (to_number 0).

(** The end callback [hideTip] gives to [start], acting on the promise
    [hideTip] returned. *)
Definition hideTip_onEnd (result : EndResult)
  : Js.PromiseState -> Js.PromiseState :=
  if finished result then Js.resolve else Js.reject None.

(** The promise [hideTip] returned, once the animation has reported
    [ended]; [None] while it has not ended. *)
Definition hideTip (ended : option EndResult) : Js.PromiseState :=
  match ended with
  | None => Js.Pending
  | Some result => hideTip_onEnd result Js.Pending
  end.

End Component.

Arguments color {ReactNode} _.
Arguments opacity {ReactNode} _.
Arguments tour {ReactNode} _.
Arguments shouldContinueOnBackdropPress {ReactNode} _.
Arguments tourStep {ReactNode} _.
Arguments tipStyle {ReactNode} _.
Arguments maskElement {ReactNode} _.
Arguments rectFill {ReactNode} _.
Arguments rectOpacity {ReactNode} _.
Arguments onPress {ReactNode} _.
Arguments onLayout {ReactNode} _ _.
Arguments tipViewStyle {ReactNode} _.
Arguments children {ReactNode} _.
Arguments Null {ReactNode}.
Arguments Throws {ReactNode}.
Arguments Rendered {ReactNode} v.
Arguments output {ReactNode} _.
Arguments renderCalls {ReactNode} _.
Arguments isLastStep {ReactNode} current steps.
Arguments shape {ReactNode} tourStep.
Arguments borderWidth {ReactNode} tourStep.
Arguments horizontalRadius {ReactNode} tourStep.
Arguments verticalRadius {ReactNode} tourStep.
Arguments rectWidth {ReactNode} spot tourStep.
Arguments rectHeight {ReactNode} spot tourStep.
Arguments rectX {ReactNode} spot tourStep.
Arguments rectY {ReactNode} spot tourStep.
Arguments motion {ReactNode} tourStep.
Arguments align {ReactNode} tourStep.
Arguments circleProperties {ReactNode} spot tourStep.
Arguments rectProperties {ReactNode} spot tourStep.
Arguments MaskElement {ReactNode} spot tourStep.
Arguments getSpotlightTipStyles {ReactNode} vwDP spot tourStep tipLayout.
Arguments rectCenter {ReactNode} spot tourStep.
Arguments getRectangleTipStyles {ReactNode} vwDP spot tourStep tipLayout.
Arguments measureTip {ReactNode} vwDP spot tourStep layout.
Arguments moveIn {ReactNode} spot tourStep.
Arguments render {ReactNode} vwDP props hooks.
Arguments setTourStep {ReactNode} step hooks.
Arguments setTipStyle {ReactNode} style hooks.
Arguments effect {ReactNode} current steps hooks.
Arguments effect_timeout {ReactNode} spot tourStep hooks.

End TourOverlay.

(** ** The spotlight policy, the arithmetic left open

    [r], [cx], [cy] (lines 68 to 70 of the source) and
    [getSpotlightTipStyles] (lines 102 to 135) once more, each operation
    of the source taken from [A]. *)

Module Spotlight.

Section WithArith.

Variable A : Arith.ops.
Variable ReactNode : Type.
Variable vwDP : Q -> Q.
Variable spot : LayoutRectangle.
Variable tourStep : TourStep.t ReactNode.

Definition r : Q :=
  Arith.mul A
    (Arith.div A (Js.Math_max (width spot) (height spot)) 2)
    (Arith.numeral A (115 # 100)).

Definition cx : Q := Arith.add A (x spot) (Arith.div A (width spot) 2).

Definition cy : Q := Arith.add A (y spot) (Arith.div A (height spot) 2).

Definition getSpotlightTipStyles (tipLayout : LayoutRectangle)
  : option ViewStyle :=
  let tipMargin := dim_string "2%" in
  let align := TourStep.alignTo tourStep ?? SPOT in
  match TourStep.position tourStep with
  | member BOTTOM =>
      Some {| left := if Align_eqb align SPOT
                      then Js.Math_round
                             (Arith.sub A cx
                                (Arith.div A (width tipLayout) 2))
                      else Js.Math_round
                             (Arith.div A
                                (Arith.sub A (vwDP 100) (width tipLayout))
                                2);
              marginTop := Some tipMargin;
              top := Js.Math_round (Arith.add A cy r);
              marginBottom := None;
              marginLeft := None;
              marginRight := None |}
  | member TOP =>
      Some {| left := if Align_eqb align SPOT
                      then Js.Math_round
                             (Arith.sub A cx
                                (Arith.div A (width tipLayout) 2))
                      else Js.Math_round
                             (Arith.div A
                                (Arith.sub A (vwDP 100) (width tipLayout))
                                2);
              marginBottom := Some tipMargin;
              top := Js.Math_round
                       (Arith.sub A (Arith.sub A cy r) (height tipLayout));
              marginTop := None;
              marginLeft := None;
              marginRight := None |}
  | member LEFT =>
      Some {| left := Js.Math_round
                        (Arith.sub A (Arith.sub A cx r) (width tipLayout));
              marginRight := Some tipMargin;
              top := Js.Math_round
                       (Arith.sub A cy (Arith.div A (height tipLayout) 2));
              marginTop := None;
              marginBottom := None;
              marginLeft := None |}
  | member RIGHT =>
      Some {| left := Js.Math_round (Arith.add A cx r);
              marginLeft := Some tipMargin;
              top := Js.Math_round
                       (Arith.sub A cy (Arith.div A (height tipLayout) 2));
              marginTop := None;
              marginBottom := None;
              marginRight := None |}
  | foreign _ => None
  end.

End WithArith.

Arguments getSpotlightTipStyles A {ReactNode} vwDP spot tourStep tipLayout.

End Spotlight.

(** ** Inputs used by the examples below *)

Module Sample.

(** A viewport 360 units wide. *)
Definition vwDP (percentage : Q) : Q := 360 * percentage / 100.

Definition spot : LayoutRectangle :=
  {| x := 100; y := 200; width := 50; height := 50 |}.

Definition tip : LayoutRectangle :=
  {| x := 0; y := 0; width := 120; height := 40 |}.

(** A spot whose centre lies half-way between two units, and a small
    tooltip. *)
Definition unit_spot : LayoutRectangle :=
  {| x := 0; y := 0; width := 1; height := 1 |}.

Definition small_tip : LayoutRectangle :=
  {| x := 0; y := 0; width := 1 # 2; height := 1 # 2 |}.



(** Spots in whole units for which the radius times 1.15 lies next to a
    half. *)
Definition left_spot : LayoutRectangle :=
  {| x := -44; y := 200; width := 100; height := 100 |}.

Definition long_spot : LayoutRectangle :=
  {| x := 10; y := 20; width := 340; height := 60 |}.

(** A step whose tooltip body is a string. *)
Definition step (position : Runtime Position) (shape : option Shape)
           (motion : option Motion) (alignTo : option Align)
           (shapeProperties : option RectangleProps.t)
  : TourStep.t string :=
  {| TourStep.alignTo := alignTo;
     TourStep.position := position;
     TourStep.shape := shape;
     TourStep.motion := motion;
     TourStep.shapeProperties := shapeProperties;
     TourStep.render := fun _ => "tip"%string |}.

(** The step of the specification's worked example. *)
Definition bottom_step : TourStep.t string :=
  step (member BOTTOM) (Some SPOTLIGHT) None (Some SPOT) None.

Definition fading_step : TourStep.t string :=
  step (member BOTTOM) None (Some FADING) None None.

Definition bordered : RectangleProps.t :=
  {| RectangleProps.borderWidth := Some 4;
     RectangleProps.horizontalRadius := Some 8;
     RectangleProps.verticalRadius := Some 6 |}.

Definition rectangle_step : TourStep.t string :=
  step (member TOP) (Some RECTANGLE) (Some FADING) (Some CENTER)
       (Some bordered).

Definition bare_step : TourStep.t string :=
  step (member RIGHT) None None None None.

Definition stray_step : TourStep.t string :=
  step (foreign "CENTER") None None None None.

Definition props (current : option Z) (spot : option LayoutRectangle)
           (steps : list (TourStep.t string))
           (shouldContinueOnBackdropPress : option bool)
  : TourOverlay.TourOverlayProps string :=
  {| TourOverlay.color := None;
     TourOverlay.opacity := None;
     TourOverlay.tour :=
       {| SpotlightTourCtx.current := current;
          SpotlightTourCtx.spot := spot;
          SpotlightTourCtx.steps := steps |};
     TourOverlay.shouldContinueOnBackdropPress :=
       shouldContinueOnBackdropPress |}.

End Sample.

(** ** The placement tables of the specification (section 4.3)

    Written from the tables' rows, before rounding: [W] is the width of
    the viewport, [tipW] and [tipH] the size of the tooltip. *)

Module Table.

(** "alignTo==SPOT ? center.x - tipW/2 : (W - tipW)/2" *)
Definition left_rule (alignTo : Align) (W centerX tipW : Q) : Q :=
  match alignTo with
  | SPOT => centerX - tipW / 2
  | CENTER => (W - tipW) / 2
  end.

Definition spotlight_left (position : Position) (alignTo : Align)
           (W centerX r tipW : Q) : Q :=
  match position with
  | BOTTOM | TOP => left_rule alignTo W centerX tipW
  | LEFT => centerX - r - tipW
  | RIGHT => centerX + r
  end.

Definition spotlight_top (position : Position) (centerY r tipH : Q) : Q :=
  match position with
  | BOTTOM => centerY + r
  | TOP => centerY - r - tipH
  | LEFT | RIGHT => centerY - tipH / 2
  end.

Definition rectangle_left (position : Position) (alignTo : Align)
           (W rectCenterX rectX rectWidth tipW : Q) : Q :=
  match position with
  | BOTTOM | TOP => left_rule alignTo W rectCenterX tipW
  | LEFT => rectX - tipW
  | RIGHT => rectX + rectWidth
  end.

Definition rectangle_top (position : Position)
           (rectCenterY rectY rectHeight tipH : Q) : Q :=
  match position with
  | BOTTOM => rectY + rectHeight
  | TOP => rectY - tipH - 10
  | LEFT | RIGHT => rectCenterY - tipH / 2
  end.

End Table.

(** The circle and the spotlight table of section 4.3 once more, written
    from the same words with the operations taken from an arithmetic:
    "r = max(spot.width, spot.height) / 2 * 1.15",
    "center = (spot.x + spot.width/2, spot.y + spot.height/2)", and the
    four rows. *)
Module TableIn.

Section WithArith.

Variable A : Arith.ops.

Definition r (spot : LayoutRectangle) : Q :=
  Arith.mul A
    (Arith.div A (Js.Math_max (width spot) (height spot)) 2)
    (Arith.numeral A (115 # 100)).

Definition center (spot : LayoutRectangle) : Q * Q :=
  (Arith.add A (x spot) (Arith.div A (width spot) 2),
   Arith.add A (y spot) (Arith.div A (height spot) 2)).

Definition left_rule (alignTo : Align) (W centerX tipW : Q) : Q :=
  match alignTo with
  | SPOT => Arith.sub A centerX (Arith.div A tipW 2)
  | CENTER => Arith.div A (Arith.sub A W tipW) 2
  end.

Definition spotlight_left (position : Position) (alignTo : Align)
           (W centerX r tipW : Q) : Q :=
  match position with
  | BOTTOM | TOP => left_rule alignTo W centerX tipW
  | LEFT => Arith.sub A (Arith.sub A centerX r) tipW
  | RIGHT => Arith.add A centerX r
  end.

Definition spotlight_top (position : Position) (centerY r tipH : Q) : Q :=
  match position with
  | BOTTOM => Arith.add A centerY r
  | TOP => Arith.sub A (Arith.sub A centerY r) tipH
  | LEFT | RIGHT => Arith.sub A centerY (Arith.div A tipH 2)
  end.

End WithArith.

End TableIn.

(** ** Predicates of the statements below *)

(** The margin of a tooltip on the side that faces the spot: its top
    when it is below the spot, its bottom when above, and so on. *)
Definition margin_facing_spot (position : Position) (style : ViewStyle)
  : option DimensionValue :=
  match position with
  | BOTTOM => marginTop style
  | TOP => marginBottom style
  | LEFT => marginRight style
  | RIGHT => marginLeft style
  end.

(** The margins on the three other sides are not set. *)
Definition other_margins_unset (position : Position) (style : ViewStyle)
  : bool :=
  let unset (m : option DimensionValue) :=
    match m with None => true | Some _ => false end in
  match position with
  | BOTTOM =>
      unset (marginBottom style) && unset (marginLeft style)
      && unset (marginRight style)
  | TOP =>
      unset (marginTop style) && unset (marginLeft style)
      && unset (marginRight style)
  | LEFT =>
      unset (marginTop style) && unset (marginBottom style)
      && unset (marginLeft style)
  | RIGHT =>
      unset (marginTop style) && unset (marginBottom style)
      && unset (marginRight style)
  end.

(** A numeric attribute that is a number is an integer; an animated one
    is judged by the value its animation runs to, see [moveIn]. *)
Definition integral (p : NumberProp) : bool :=
  match p with
  | Num v => Js.isInteger v
  | Animated _ => true
  end.

(** Every coordinate of the mask's element is an integer. *)
Definition mask_integral (e : Element) : bool :=
  match e with
  | AnimatedCircle p =>
      integral (Circle.r p) && integral (Circle.cx p)
      && integral (Circle.cy p)
  | AnimatedRect p =>
      integral (Rect.x p) && integral (Rect.y p)
      && Js.isInteger (Rect.width p) && Js.isInteger (Rect.height p)
  end.

(** Every value an animation runs to is an integer. *)
Definition target_integral (a : Animation) : bool :=
  let to_integral (t : ToValue) :=
    match t with
    | to_number v => Js.isInteger v
    | to_xy vx vy => Js.isInteger vx && Js.isInteger vy
    end in
  match a with
  | spring _ _ _ _ t => to_integral t
  | timing _ _ _ t => to_integral t
  end.

(** The mask's element of a render that returned an element tree. *)
Definition delivered_mask {ReactNode : Type}
           (o : TourOverlay.Outcome ReactNode) : option Element :=
  match TourOverlay.output o with
  | TourOverlay.Rendered v => Some (TourOverlay.maskElement v)
  | _ => None
  end.

Definition is_rejected (p : Js.PromiseState) : bool :=
  match p with
  | Js.Rejected _ => true
  | _ => false
  end.

(** ** Notions of the further properties *)

(** The spot moved by whole units. *)
Definition shift (spot : LayoutRectangle) (dx dy : Z) : LayoutRectangle :=
  {| x := x spot + inject_Z dx;
     y := y spot + inject_Z dy;
     width := width spot;
     height := height spot |}.


(** A point lies in the closed disc of the spotlight for a spot. *)
Definition in_spotlight (spot : LayoutRectangle) (px py : Q) : Prop :=
  (px - TourOverlay.cx spot) * (px - TourOverlay.cx spot)
  + (py - TourOverlay.cy spot) * (py - TourOverlay.cy spot)
  <= TourOverlay.r spot * TourOverlay.r spot.

Definition AnimatedValue_eqb (a b : AnimatedValue) : bool :=
  match a, b with
  | radius, radius
  | center_x, center_x
  | center_y, center_y
  | rectCoordinates_x, rectCoordinates_x
  | rectCoordinates_y, rectCoordinates_y
  | componentOpacity, componentOpacity => true
  | _, _ => false
  end.

(** The value an animation runs an animated value to, when it animates
    that value. *)
Definition runs_to (a : Animation) (v : AnimatedValue) : option Q :=
  let pick (target : AnimatedTarget) (toValue : ToValue) :=
    match target, toValue with
    | on_value a', to_number q =>
        if AnimatedValue_eqb a' v then Some q else None
    | on_xy ax ay, to_xy qx qy =>
        if AnimatedValue_eqb ax v then Some qx
        else if AnimatedValue_eqb ay v then Some qy
        else None
    | _, _ => None
    end in
  match a with
  | spring target _ _ _ toValue => pick target toValue
  | timing target _ _ toValue => pick target toValue
  end.

(** The value an animated value has come to when a parallel animation
    has run to its end: that of the first animation that animates it. *)
Fixpoint rest_value (animations : list Animation) (v : AnimatedValue)
  : option Q :=
  match animations with
  | [] => None
  | a :: rest =>
      match runs_to a v with
      | Some q => Some q
      | None => rest_value rest v
      end
  end.

(** A numeric attribute once the animations have run to their end. *)
Definition at_rest (animations : list Animation) (p : NumberProp)
  : option Q :=
  match p with
  | Num q => Some q
  | Animated v => rest_value animations v
  end.

(** The element tree of a render that returned one. *)
Definition rendered {ReactNode : Type}
           (o : TourOverlay.Outcome ReactNode)
  : option (TourOverlay.View ReactNode) :=
  match TourOverlay.output o with
  | TourOverlay.Rendered v => Some v
  | _ => None
  end.

(** * Properties *)

(** ** The number primitives *)

Lemma Math_max_Qmax (a b : Q) : Js.Math_max a b == Qmax a b.
Proof.
  unfold Js.Math_max.
  destruct (Qle_bool a b) eqn:E.
  - apply Qle_bool_iff in E. symmetry. now apply Q.max_r.
  - symmetry. apply Q.max_l.
    apply Qlt_le_weak, Qnot_le_lt. intro H.
    apply Qle_bool_iff in H. congruence.
Qed.

Lemma Math_round_isInteger (v : Q) : Js.isInteger (Js.Math_round v) = true.
Proof.
  unfold Js.isInteger, Js.Math_round.
  rewrite Qfloor_Z. apply Qeq_bool_refl.
Qed.

(** [Math.round] is within a half of its argument, the half itself only
    upwards. *)
Lemma Math_round_nearest (v : Q) :
  v - (1 # 2) < Js.Math_round v /\ Js.Math_round v <= v + (1 # 2).
Proof.
  unfold Js.Math_round. split.
  - pose proof (Qlt_floor (v + (1 # 2))) as H.
    rewrite inject_Z_plus in H. change (inject_Z 1) with 1 in H.
    apply Qplus_lt_l with (z := 1).
    eapply Qle_lt_trans; [| exact H].
    ring_simplify. apply Qle_refl.
  - apply Qfloor_le.
Qed.

Lemma isInteger_inject_Z (z : Z) : Js.isInteger (inject_Z z) = true.
Proof.
  unfold Js.isInteger. rewrite Qfloor_Z. apply Qeq_bool_refl.
Qed.

(** Rounding to the nearest double at a few values: [1.15] becomes
    5179139571476070 / 2^52; whole numbers and halves stay; a tie goes to
    the even mantissa, so 2^53 + 1 becomes 2^53 and 2^53 + 3 becomes
    2^53 + 4; 25 times the double [1.15] becomes 28.75 - 2^-48. *)
Example fl_values :
  Binary64.fl (115 # 100) == 5179139571476070 # 4503599627370496
  /\ Binary64.fl 340 == 340
  /\ Binary64.fl (-44) == -44
  /\ Binary64.fl (101 # 2) == 101 # 2
  /\ Binary64.fl 9007199254740993 == 9007199254740992
  /\ Binary64.fl 9007199254740995 == 9007199254740996
  /\ Binary64.fl (25 * (5179139571476070 # 4503599627370496))
     == 28.75 - (1 # 281474976710656).
Proof.
  repeat split; vm_compute; reflexivity.
Qed.

(** ** Geometry of the mask *)

(** A spot of non-negative size gives a non-negative radius. *)
Lemma r_nonneg (spot : LayoutRectangle) :
  0 <= width spot -> 0 <= height spot -> 0 <= TourOverlay.r spot.
Proof.
  intros Hw Hh. unfold TourOverlay.r.
  rewrite Math_max_Qmax.
  apply Qmult_le_0_compat; [| discriminate].
  apply Qle_shift_div_l; [reflexivity |].
  rewrite Qmult_0_l.
  apply Qle_trans with (width spot); [exact Hw | apply Q.le_max_l].
Qed.

(** For a spotlight step the mask holds a circle: under [FADING] with
    [r], [cx] and [cy] themselves, under [SLIDING] with the animated
    values that [moveIn] runs to [r], [cx] and [cy]. *)
Lemma MaskElement_spotlight {ReactNode : Type} (spot : LayoutRectangle)
      (step : TourStep.t ReactNode) :
  TourOverlay.shape step = SPOTLIGHT ->
  TourOverlay.MaskElement spot step =
    match TourOverlay.motion step with
    | SLIDING =>
        AnimatedCircle
          {| Circle.r := Animated radius;
             Circle.cx := Animated center_x;
             Circle.cy := Animated center_y;
             Circle.opacity := None;
             Circle.fill := "black" |}
    | FADING =>
        AnimatedCircle
          {| Circle.r := Num (TourOverlay.r spot);
             Circle.cx := Num (TourOverlay.cx spot);
             Circle.cy := Num (TourOverlay.cy spot);
             Circle.opacity := Some (Animated componentOpacity);
             Circle.fill := "black" |}
    end.
Proof.
  intros Hs. unfold TourOverlay.MaskElement, TourOverlay.circleProperties.
  rewrite Hs. now destruct (TourOverlay.motion step).
Qed.

Lemma moveIn_targets {ReactNode : Type} (spot : LayoutRectangle)
      (step : TourStep.t ReactNode) :
  In (spring (on_xy center_x center_y) 50 5 300
             (to_xy (TourOverlay.cx spot) (TourOverlay.cy spot)))
     (TourOverlay.moveIn spot step)
  /\ In (spring (on_value radius) 30 5 300 (to_number (TourOverlay.r spot)))
        (TourOverlay.moveIn spot step)
  /\ In (spring (on_xy rectCoordinates_x rectCoordinates_y) 50 5 300
                (to_xy (TourOverlay.rectX spot step)
                       (TourOverlay.rectY spot step)))
        (TourOverlay.moveIn spot step).
Proof.
  unfold TourOverlay.moveIn. simpl. auto 6.
Qed.



(** C2: for every spot rectangle and every [borderWidth], the rectangle
    of the mask has [rectWidth = spot.width + 2*borderWidth],
    [rectHeight = spot.height + 2*borderWidth],
    [rectX = spot.x - borderWidth], [rectY = spot.y - borderWidth], and
    the rendered mask has the step's [horizontalRadius] and
    [verticalRadius] as its corner radii, unchanged.  The rendered
    rectangle has that width and height; its corner is [(rectX, rectY)]
    under [FADING], and under [SLIDING] the animated pair that [moveIn]
    runs to [(rectX, rectY)]. *)
Theorem rectangle_geometry {ReactNode : Type} (spot : LayoutRectangle)
        (step : TourStep.t ReactNode) (bw hr vr : Q) :
  TourStep.shape step = Some RECTANGLE ->
  TourStep.shapeProperties step =
    Some {| RectangleProps.borderWidth := Some bw;
            RectangleProps.horizontalRadius := Some hr;
            RectangleProps.verticalRadius := Some vr |} ->
  (TourOverlay.rectWidth spot step = width spot + 2 * bw
   /\ TourOverlay.rectHeight spot step = height spot + 2 * bw
   /\ TourOverlay.rectX spot step = x spot - bw
   /\ TourOverlay.rectY spot step = y spot - bw)
  /\ TourOverlay.MaskElement spot step =
       AnimatedRect
         {| Rect.x := match TourOverlay.motion step with
                      | SLIDING => Animated rectCoordinates_x
                      | FADING => Num (x spot - bw)
                      end;
            Rect.y := match TourOverlay.motion step with
                      | SLIDING => Animated rectCoordinates_y
                      | FADING => Num (y spot - bw)
                      end;
            Rect.opacity := match TourOverlay.motion step with
                            | SLIDING => None
                            | FADING => Some (Animated componentOpacity)
                            end;
            Rect.width := width spot + 2 * bw;
            Rect.height := height spot + 2 * bw;
            Rect.rx := hr;
            Rect.ry := vr;
            Rect.fill := "black" |}
  /\ In (spring (on_xy rectCoordinates_x rectCoordinates_y) 50 5 300
                (to_xy (x spot - bw) (y spot - bw)))
        (TourOverlay.moveIn spot step).
Proof.
  intros Hshape Hprops.
  assert (Hbw : TourOverlay.borderWidth step = bw)
    by (unfold TourOverlay.borderWidth; now rewrite Hprops).
  assert (Hhr : TourOverlay.horizontalRadius step = hr)
    by (unfold TourOverlay.horizontalRadius; now rewrite Hprops).
  assert (Hvr : TourOverlay.verticalRadius step = vr)
    by (unfold TourOverlay.verticalRadius; now rewrite Hprops).
  assert (Hgeo : TourOverlay.rectWidth spot step = width spot + 2 * bw
                 /\ TourOverlay.rectHeight spot step = height spot + 2 * bw
                 /\ TourOverlay.rectX spot step = x spot - bw
                 /\ TourOverlay.rectY spot step = y spot - bw).
  { unfold TourOverlay.rectWidth, TourOverlay.rectHeight,
      TourOverlay.rectX, TourOverlay.rectY.
    rewrite Hbw. repeat split. }
  destruct Hgeo as (Hw & Hh & Hx & Hy).
  split; [now repeat split |]. split.
  - unfold TourOverlay.MaskElement, TourOverlay.rectProperties,
      TourOverlay.shape.
    rewrite Hshape, Hw, Hh, Hx, Hy, Hhr, Hvr. simpl.
    now destruct (TourOverlay.motion step).
  - destruct (moveIn_targets spot step) as (_ & _ & Hin).
    now rewrite Hx, Hy in Hin.
Qed.

Lemma rectangle_geometry_witness :
  TourOverlay.MaskElement Sample.spot Sample.rectangle_step =
    AnimatedRect
      {| Rect.x := Num (100 - 4);
         Rect.y := Num (200 - 4);
         Rect.opacity := Some (Animated componentOpacity);
         Rect.width := 50 + 2 * 4;
         Rect.height := 50 + 2 * 4;
         Rect.rx := 8;
         Rect.ry := 6;
         Rect.fill := "black" |}.
Proof.
  exact (proj1 (proj2 (rectangle_geometry Sample.spot Sample.rectangle_step
                                          4 8 6 eq_refl eq_refl))).
Defined.

(** ** Placement of the tooltip *)

(** With every operation read exactly, the spotlight policy with the
    arithmetic left open is the one of the component. *)
Lemma Spotlight_exact {ReactNode : Type} (vwDP : Q -> Q)
      (spot : LayoutRectangle) (step : TourStep.t ReactNode)
      (tip : LayoutRectangle) :
  Spotlight.r Arith.exact spot = TourOverlay.r spot
  /\ Spotlight.cx Arith.exact spot = TourOverlay.cx spot
  /\ Spotlight.cy Arith.exact spot = TourOverlay.cy spot
  /\ Spotlight.getSpotlightTipStyles Arith.exact vwDP spot step tip
     = TourOverlay.getSpotlightTipStyles vwDP spot step tip.
Proof.
  repeat split.
Qed.

(** What the program computes, in double precision, where the exact
    reading differs: for spots in whole units the radius falls just
    below a half, and so do [left] and [top]; a spot moved down by 20
    can move the tooltip by 21. *)
Example binary64_placements :
  option_map left
    (Spotlight.getSpotlightTipStyles Arith.binary64 Sample.vwDP
       Sample.left_spot Sample.bare_step Sample.tip) = Some 63
  /\ option_map left
       (Spotlight.getSpotlightTipStyles Arith.exact Sample.vwDP
          Sample.left_spot Sample.bare_step Sample.tip) = Some 64
  /\ option_map top
       (Spotlight.getSpotlightTipStyles Arith.binary64 Sample.vwDP
          Sample.long_spot Sample.bottom_step Sample.tip) = Some 245
  /\ option_map top
       (Spotlight.getSpotlightTipStyles Arith.exact Sample.vwDP
          Sample.long_spot Sample.bottom_step Sample.tip) = Some 246
  /\ option_map top
       (Spotlight.getSpotlightTipStyles Arith.binary64 Sample.vwDP
          (shift Sample.long_spot 0 20) Sample.bottom_step Sample.tip)
     = Some 266.
Proof.
  repeat split; vm_compute; reflexivity.
Qed.

(** C3, as stated, fails in its example: for the spot
    [{x:100, y:200, width:50, height:50}] the program's [r], the product
    of 25 and the double [1.15], is not 28.75 but the double next below
    it, 28.75 - 2^-48, which prints as 28.749999999999996. *)
Lemma spotlight_example_radius :
  ~ Spotlight.r Arith.binary64 Sample.spot == 28.75
  /\ Spotlight.r Arith.binary64 Sample.spot
     == 28.75 - (1 # 281474976710656).
Proof.
  split.
  - vm_compute. discriminate.
  - vm_compute. reflexivity.
Qed.

(** C3, amended: in either arithmetic, the spotlight policy returns the
    entries of its table, each rounded by [Math.round], the alignment
    being the step's [alignTo], or [SPOT] when the step has none: BOTTOM
    has [left = alignTo==SPOT ? center.x - tipW/2 : (W - tipW)/2] and
    [top = center.y + r], with a margin of 2% below the spot; TOP has the
    same [left] and [top = center.y - r - tipH], with a margin of 2%
    above the spot; LEFT has [left = center.x - r - tipW] and
    [top = center.y - tipH/2]; RIGHT has [left = center.x + r] and
    [top = center.y - tipH/2]; [r] and [center] are those of the circle.
    The function of the component is this policy read exactly.  For the
    spot [{x:100, y:200, width:50, height:50}], BOTTOM, SPOT, a tooltip of
    120 by 40 and a viewport 360 wide, the program computes
    [r = 28.749999999999996] (28.75 - 2^-48), [center = (125, 225)], and
    before rounding [left = 65] and [top = 253.75]; it returns
    [left = 65] and [top = 254]. *)
Theorem spotlight_placement :
  (forall (A : Arith.ops) (ReactNode : Type) (vwDP : Q -> Q)
          (spot : LayoutRectangle) (step : TourStep.t ReactNode)
          (tip : LayoutRectangle) (p : Position),
      TourStep.position step = member p ->
      let alignTo :=
        match TourStep.alignTo step with Some a => a | None => SPOT end in
      exists style : ViewStyle,
        Spotlight.getSpotlightTipStyles A vwDP spot step tip = Some style
        /\ left style =
             Js.Math_round
               (TableIn.spotlight_left A p alignTo (vwDP 100)
                  (fst (TableIn.center A spot)) (TableIn.r A spot)
                  (width tip))
        /\ top style =
             Js.Math_round
               (TableIn.spotlight_top A p (snd (TableIn.center A spot))
                  (TableIn.r A spot) (height tip))
        /\ margin_facing_spot p style = Some (dim_string "2%")
        /\ other_margins_unset p style = true)
  /\ (forall (ReactNode : Type) (vwDP : Q -> Q) (spot : LayoutRectangle)
             (step : TourStep.t ReactNode) (tip : LayoutRectangle),
         TourOverlay.getSpotlightTipStyles vwDP spot step tip
         = Spotlight.getSpotlightTipStyles Arith.exact vwDP spot step tip)
  /\ (TableIn.r Arith.binary64 Sample.spot
      == 28.75 - (1 # 281474976710656)
      /\ fst (TableIn.center Arith.binary64 Sample.spot) == 125
      /\ snd (TableIn.center Arith.binary64 Sample.spot) == 225
      /\ TableIn.spotlight_left Arith.binary64 BOTTOM SPOT
           (Sample.vwDP 100)
           (fst (TableIn.center Arith.binary64 Sample.spot))
           (TableIn.r Arith.binary64 Sample.spot) (width Sample.tip) == 65
      /\ TableIn.spotlight_top Arith.binary64 BOTTOM
           (snd (TableIn.center Arith.binary64 Sample.spot))
           (TableIn.r Arith.binary64 Sample.spot) (height Sample.tip)
         == 253.75
      /\ Spotlight.getSpotlightTipStyles Arith.binary64 Sample.vwDP
           Sample.spot Sample.bottom_step Sample.tip =
           Some {| left := 65;
                   top := 254;
                   marginTop := Some (dim_string "2%");
                   marginBottom := None;
                   marginLeft := None;
                   marginRight := None |}).
Proof.
  split; [| split].
  - intros A ReactNode vwDP spot step tip p Hp. cbv zeta.
    unfold Spotlight.getSpotlightTipStyles. rewrite Hp.
    destruct p; eexists; (split; [reflexivity |]); simpl;
      destruct (TourStep.alignTo step) as [[ | ] |]; repeat split.
  - reflexivity.
  - repeat split; vm_compute; reflexivity.
Qed.

Lemma spotlight_placement_witness :
  exists style : ViewStyle,
    Spotlight.getSpotlightTipStyles Arith.binary64 Sample.vwDP
      Sample.long_spot
      (Sample.step (member BOTTOM) None None (Some CENTER) None)
      Sample.tip = Some style
    /\ left style =
         Js.Math_round
           (TableIn.spotlight_left Arith.binary64 BOTTOM CENTER
              (Sample.vwDP 100)
              (fst (TableIn.center Arith.binary64 Sample.long_spot))
              (TableIn.r Arith.binary64 Sample.long_spot)
              (width Sample.tip))
    /\ top style =
         Js.Math_round
           (TableIn.spotlight_top Arith.binary64 BOTTOM
              (snd (TableIn.center Arith.binary64 Sample.long_spot))
              (TableIn.r Arith.binary64 Sample.long_spot)
              (height Sample.tip))
    /\ margin_facing_spot BOTTOM style = Some (dim_string "2%")
    /\ other_margins_unset BOTTOM style = true.
Proof.
  exact (proj1 spotlight_placement Arith.binary64 string Sample.vwDP
               Sample.long_spot
               (Sample.step (member BOTTOM) None None (Some CENTER) None)
               Sample.tip BOTTOM eq_refl).
Defined.




(** The [center] of the rectangle policy is rounded before the tooltip's
    half width is taken off, and the difference is rounded again: for a
    centre at 1/2 and a tooltip 1/2 wide the code gives [left = 1], where
    the unrounded centre would give 0. *)
Remark rectCenter_rounded_first :
  fst (TourOverlay.rectCenter Sample.unit_spot Sample.bare_step) == 1
  /\ TourOverlay.rectX Sample.unit_spot Sample.bare_step
     + TourOverlay.rectWidth Sample.unit_spot Sample.bare_step / 2 == 1 # 2
  /\ option_map left
       (TourOverlay.getRectangleTipStyles Sample.vwDP Sample.unit_spot
          (Sample.step (member BOTTOM) None None None None)
          Sample.small_tip) = Some 1
  /\ Js.Math_round ((1 # 2) - width Sample.small_tip / 2) == 0.
Proof.
  repeat split.
Qed.

(** ** Rounding *)

Lemma getSpotlightTipStyles_integral {ReactNode : Type} (vwDP : Q -> Q)
      (spot : LayoutRectangle) (step : TourStep.t ReactNode)
      (tip : LayoutRectangle) (style : ViewStyle) :
  TourOverlay.getSpotlightTipStyles vwDP spot step tip = Some style ->
  Js.isInteger (left style) = true /\ Js.isInteger (top style) = true.
Proof.
  unfold TourOverlay.getSpotlightTipStyles.
  destruct (TourStep.position step) as [[ | | | ] | raw];
    intros H; inversion H; subst; clear H; simpl;
    try destruct (Align_eqb _ _);
    split; apply Math_round_isInteger.
Qed.

Lemma getRectangleTipStyles_integral {ReactNode : Type} (vwDP : Q -> Q)
      (spot : LayoutRectangle) (step : TourStep.t ReactNode)
      (tip : LayoutRectangle) (style : ViewStyle) :
  TourOverlay.getRectangleTipStyles vwDP spot step tip = Some style ->
  Js.isInteger (left style) = true /\ Js.isInteger (top style) = true.
Proof.
  unfold TourOverlay.getRectangleTipStyles.
  destruct (TourStep.position step) as [[ | | | ] | raw];
    intros H; inversion H; subst; clear H; simpl;
    try destruct (Align_eqb _ _);
    split; apply Math_round_isInteger.
Qed.

(** C5, as stated, fails for the mask: for the spot
    [{x:100, y:200, width:50, height:50}] a [FADING] step renders a
    circle of radius 28.75, and a [SLIDING] step animates the radius to
    28.75. *)
Lemma mask_coordinates_not_rounded :
  option_map mask_integral
    (delivered_mask
       (TourOverlay.render Sample.vwDP
          (Sample.props (Some 0%Z) (Some Sample.spot) [Sample.fading_step]
                        None)
          None)) = Some false
  /\ forallb target_integral
       (TourOverlay.moveIn Sample.spot Sample.bare_step) = false.
Proof.
  split; reflexivity.
Qed.

Lemma Spotlight_getSpotlightTipStyles_integral {ReactNode : Type}
      (A : Arith.ops) (vwDP : Q -> Q) (spot : LayoutRectangle)
      (step : TourStep.t ReactNode) (tip : LayoutRectangle)
      (style : ViewStyle) :
  Spotlight.getSpotlightTipStyles A vwDP spot step tip = Some style ->
  Js.isInteger (left style) = true /\ Js.isInteger (top style) = true.
Proof.
  unfold Spotlight.getSpotlightTipStyles.
  destruct (TourStep.position step) as [[ | | | ] | raw];
    intros H; inversion H; subst; clear H; simpl;
    try destruct (Align_eqb _ _);
    split; apply Math_round_isInteger.
Qed.

(** C5, amended: the [left] and [top] that either placement policy
    produces are integers, each the result of [Math.round], in either
    arithmetic.  The coordinates of the mask are handed over as computed,
    without rounding: a fading circle has [r], [cx] and [cy] as its
    attributes and a fading rectangle [rectX] and [rectY]; a sliding one
    has the animated values that [moveIn] runs to [r], [(cx, cy)] and
    [(rectX, rectY)]; a rectangle has [rectWidth] and [rectHeight] as its
    width and height under either motion. *)
Theorem tip_coordinates_integral {ReactNode : Type} (A : Arith.ops)
        (vwDP : Q -> Q) (spot : LayoutRectangle)
        (step : TourStep.t ReactNode) (tip : LayoutRectangle)
        (style : ViewStyle) :
  TourOverlay.getSpotlightTipStyles vwDP spot step tip = Some style
  \/ TourOverlay.getRectangleTipStyles vwDP spot step tip = Some style
  \/ Spotlight.getSpotlightTipStyles A vwDP spot step tip = Some style ->
  let given := TourStep.shapeProperties step in
  let b :=
    match given with
    | Some g =>
        match RectangleProps.borderWidth g with Some v => v | None => 0 end
    | None => 0
    end in
  let hr :=
    match given with
    | Some g =>
        match RectangleProps.horizontalRadius g with
        | Some v => v
        | None => 0
        end
    | None => 0
    end in
  let vr :=
    match given with
    | Some g =>
        match RectangleProps.verticalRadius g with
        | Some v => v
        | None => 0
        end
    | None => 0
    end in
  let r := Js.Math_max (width spot) (height spot) / 2 * 1.15 in
  let cx := x spot + width spot / 2 in
  let cy := y spot + height spot / 2 in
  let rectX := x spot - b in
  let rectY := y spot - b in
  let rectWidth := width spot + 2 * b in
  let rectHeight := height spot + 2 * b in
  (Js.isInteger (left style) = true /\ Js.isInteger (top style) = true)
  /\ TourOverlay.MaskElement spot step =
       match
         match TourStep.shape step with Some s => s | None => SPOTLIGHT end,
         match TourStep.motion step with Some m => m | None => SLIDING end
       with
       | SPOTLIGHT, FADING =>
           AnimatedCircle
             {| Circle.r := Num r;
                Circle.cx := Num cx;
                Circle.cy := Num cy;
                Circle.opacity := Some (Animated componentOpacity);
                Circle.fill := "black" |}
       | SPOTLIGHT, SLIDING =>
           AnimatedCircle
             {| Circle.r := Animated radius;
                Circle.cx := Animated center_x;
                Circle.cy := Animated center_y;
                Circle.opacity := None;
                Circle.fill := "black" |}
       | RECTANGLE, FADING =>
           AnimatedRect
             {| Rect.x := Num rectX;
                Rect.y := Num rectY;
                Rect.opacity := Some (Animated componentOpacity);
                Rect.width := rectWidth;
                Rect.height := rectHeight;
                Rect.rx := hr;
                Rect.ry := vr;
                Rect.fill := "black" |}
       | RECTANGLE, SLIDING =>
           AnimatedRect
             {| Rect.x := Animated rectCoordinates_x;
                Rect.y := Animated rectCoordinates_y;
                Rect.opacity := None;
                Rect.width := rectWidth;
                Rect.height := rectHeight;
                Rect.rx := hr;
                Rect.ry := vr;
                Rect.fill := "black" |}
       end
  /\ TourOverlay.moveIn spot step =
       [ spring (on_xy center_x center_y) 50 5 300 (to_xy cx cy);
         spring (on_value radius) 30 5 300 (to_number r);
         spring (on_xy rectCoordinates_x rectCoordinates_y) 50 5 300
                (to_xy rectX rectY);
         timing (on_value componentOpacity) (Some 500) 500 (to_number 1) ].
Proof.
  intros H. cbv zeta. split; [| split].
  - destruct H as [H | [H | H]].
    + exact (getSpotlightTipStyles_integral vwDP spot step tip style H).
    + exact (getRectangleTipStyles_integral vwDP spot step tip style H).
    + exact (Spotlight_getSpotlightTipStyles_integral A vwDP spot step tip
               style H).
  - unfold TourOverlay.MaskElement, TourOverlay.circleProperties,
      TourOverlay.rectProperties, TourOverlay.shape, TourOverlay.motion,
      TourOverlay.rectX, TourOverlay.rectY, TourOverlay.rectWidth,
      TourOverlay.rectHeight, TourOverlay.borderWidth,
      TourOverlay.horizontalRadius, TourOverlay.verticalRadius.
    destruct (TourStep.shapeProperties step) as [[[b |] [hr |] [vr |]] |];
      destruct (TourStep.shape step) as [[ | ] |];
      destruct (TourStep.motion step) as [[ | ] |]; reflexivity.
  - unfold TourOverlay.moveIn, TourOverlay.rectX, TourOverlay.rectY,
      TourOverlay.borderWidth.
    destruct (TourStep.shapeProperties step) as [[[b |] hr vr] |];
      reflexivity.
Qed.

Lemma tip_coordinates_integral_witness :
  (Js.isInteger 65 = true /\ Js.isInteger 254 = true)
  /\ TourOverlay.MaskElement Sample.spot Sample.bottom_step =
       AnimatedCircle
         {| Circle.r := Animated radius;
            Circle.cx := Animated center_x;
            Circle.cy := Animated center_y;
            Circle.opacity := None;
            Circle.fill := "black" |}
  /\ TourOverlay.moveIn Sample.spot Sample.bottom_step =
       [ spring (on_xy center_x center_y) 50 5 300
                (to_xy (100 + 50 / 2) (200 + 50 / 2));
         spring (on_value radius) 30 5 300
                (to_number (Js.Math_max 50 50 / 2 * 1.15));
         spring (on_xy rectCoordinates_x rectCoordinates_y) 50 5 300
                (to_xy (100 - 0) (200 - 0));
         timing (on_value componentOpacity) (Some 500) 500 (to_number 1) ].
Proof.
  exact (tip_coordinates_integral Arith.binary64 Sample.vwDP Sample.spot
           Sample.bottom_step Sample.tip
           {| left := 65;
              top := 254;
              marginTop := Some (dim_string "2%");
              marginBottom := None;
              marginLeft := None;
              marginRight := None |}
           (or_intror (or_intror eq_refl))).
Defined.

(** ** The backdrop *)

(** A render that returns an element tree had a spot, a current index and
    a step in its state, and builds the tree from them. *)
Lemma render_Rendered {ReactNode : Type} (vwDP : Q -> Q)
      (props : TourOverlay.TourOverlayProps ReactNode)
      (hooks : option (TourOverlay.Hooks ReactNode))
      (v : TourOverlay.View ReactNode) :
  TourOverlay.output (TourOverlay.render vwDP props hooks)
  = TourOverlay.Rendered v ->
  exists (s : LayoutRectangle) (c : Z) (step : TourStep.t ReactNode),
    SpotlightTourCtx.spot (TourOverlay.tour props) = Some s
    /\ SpotlightTourCtx.current (TourOverlay.tour props) = Some c
    /\ TourOverlay.maskElement v = TourOverlay.MaskElement s step
    /\ TourOverlay.onPress v =
         TourOverlay.backdropPressHandler
           (TourOverlay.shouldContinueOnBackdropPress props ?? false)
           (TourOverlay.isLastStep (Some c)
              (SpotlightTourCtx.steps (TourOverlay.tour props))).
Proof.
  unfold TourOverlay.render.
  destruct (SpotlightTourCtx.spot (TourOverlay.tour props)) as [s |];
    [| discriminate].
  destruct (SpotlightTourCtx.current (TourOverlay.tour props)) as [c |];
    [| discriminate].
  destruct (TourOverlay.tourStep _) as [step |]; [| discriminate].
  simpl. intros H. inversion H; subst; clear H. simpl.
  exists s, c, step. repeat split.
Qed.

(** C6: in every render of the overlay, a press on the backdrop does
    nothing when [shouldContinueOnBackdropPress] is false, which it is
    when left out; when it is true the press calls [stop()] if the
    current index is the last one, [steps.length - 1], and [next()]
    otherwise. *)
Theorem backdrop_press {ReactNode : Type} (vwDP : Q -> Q)
        (props : TourOverlay.TourOverlayProps ReactNode)
        (hooks : option (TourOverlay.Hooks ReactNode))
        (v : TourOverlay.View ReactNode) (c : Z) :
  TourOverlay.output (TourOverlay.render vwDP props hooks)
  = TourOverlay.Rendered v ->
  SpotlightTourCtx.current (TourOverlay.tour props) = Some c ->
  TourOverlay.onPress v =
    match TourOverlay.shouldContinueOnBackdropPress props with
    | None | Some false => None
    | Some true =>
        let last :=
          (Z.of_nat
             (List.length (SpotlightTourCtx.steps (TourOverlay.tour props)))
           - 1)%Z in
        if (c =? last)%Z then Some stop else Some next
    end.
Proof.
  intros Hr Hc.
  destruct (render_Rendered vwDP props hooks v Hr)
    as (s & c' & step & _ & Hc' & _ & Hpress).
  rewrite Hc in Hc'. inversion Hc'; subst c'. rewrite Hpress.
  unfold TourOverlay.backdropPressHandler, TourOverlay.isLastStep.
  destruct (TourOverlay.shouldContinueOnBackdropPress props) as [[ | ] |];
    simpl; try reflexivity.
  now destruct (c =? _)%Z.
Qed.

Lemma backdrop_press_witness :
  match
    TourOverlay.output
      (TourOverlay.render Sample.vwDP
         (Sample.props (Some 1%Z) (Some Sample.spot)
            [Sample.bottom_step; Sample.bare_step] (Some true))
         None)
  with
  | TourOverlay.Rendered v => TourOverlay.onPress v = Some stop
  | _ => False
  end.
Proof.
  destruct (TourOverlay.output _) as [ | | v] eqn:Hv.
  - discriminate Hv.
  - discriminate Hv.
  - exact (backdrop_press Sample.vwDP
             (Sample.props (Some 1%Z) (Some Sample.spot)
                [Sample.bottom_step; Sample.bare_step] (Some true))
             None v 1%Z Hv eq_refl).
Defined.

(** ** [hideTip] *)

(** A promise that is settled stays as it is when the end callback runs
    again. *)
Lemma hideTip_onEnd_settled (result : EndResult) (p : Js.PromiseState) :
  p <> Js.Pending -> TourOverlay.hideTip_onEnd result p = p.
Proof.
  intros Hp. unfold TourOverlay.hideTip_onEnd.
  destruct (finished result), p; simpl; congruence.
Qed.

(** C7, as stated, fails: when the fade-out ends with [finished] false,
    the promise that [hideTip] returned is rejected. *)
Lemma hideTip_cancelled_rejects :
  is_rejected (TourOverlay.hideTip (Some {| finished := false |})) = true
  /\ TourOverlay.hideTip (Some {| finished := false |}) = Js.Rejected None.
Proof.
  split; reflexivity.
Qed.

(** C7, amended: the promise that [hideTip] returns is pending until the
    fade-out ends, is fulfilled when it ends with [finished] true, and is
    rejected, with no reason, when it ends with [finished] false. *)
Theorem hideTip_settles (ended : option EndResult) :
  TourOverlay.hideTip ended =
    match ended with
    | None => Js.Pending
    | Some result =>
        if finished result then Js.Fulfilled else Js.Rejected None
    end.
Proof.
  destruct ended as [[[ | ]] |]; reflexivity.
Qed.

(** ** Positions outside the enumeration *)

(** C8: for a step whose position is one of TOP, BOTTOM, LEFT and RIGHT,
    both placement functions return a style; for a position that is none
    of the four they return [undefined].  So under the precondition that
    the position is one of the four, [undefined] is not returned. *)
Theorem placement_defined {ReactNode : Type} (vwDP : Q -> Q)
        (spot : LayoutRectangle) (step : TourStep.t ReactNode)
        (tip : LayoutRectangle) :
  (forall p : Position,
      TourStep.position step = member p ->
      TourOverlay.getSpotlightTipStyles vwDP spot step tip <> None
      /\ TourOverlay.getRectangleTipStyles vwDP spot step tip <> None
      /\ TourOverlay.measureTip vwDP spot step tip <> None)
  /\ (forall raw : string,
         TourStep.position step = foreign raw ->
         TourOverlay.getSpotlightTipStyles vwDP spot step tip = None
         /\ TourOverlay.getRectangleTipStyles vwDP spot step tip = None
         /\ TourOverlay.measureTip vwDP spot step tip = None).
Proof.
  unfold TourOverlay.measureTip, TourOverlay.getSpotlightTipStyles,
    TourOverlay.getRectangleTipStyles.
  split.
  - intros p Hp. rewrite Hp.
    destruct p, (TourOverlay.shape step); repeat split; discriminate.
  - intros raw Hraw. rewrite Hraw.
    destruct (TourOverlay.shape step); repeat split.
Qed.

Lemma placement_defined_witness :
  (TourOverlay.getSpotlightTipStyles Sample.vwDP Sample.spot
     Sample.bare_step Sample.tip <> None
   /\ TourOverlay.getRectangleTipStyles Sample.vwDP Sample.spot
        Sample.bare_step Sample.tip <> None
   /\ TourOverlay.measureTip Sample.vwDP Sample.spot
        Sample.bare_step Sample.tip <> None)
  /\ (TourOverlay.getSpotlightTipStyles Sample.vwDP Sample.spot
        Sample.stray_step Sample.tip = None
      /\ TourOverlay.getRectangleTipStyles Sample.vwDP Sample.spot
           Sample.stray_step Sample.tip = None
      /\ TourOverlay.measureTip Sample.vwDP Sample.spot
           Sample.stray_step Sample.tip = None).
Proof.
  split.
  - exact (proj1 (placement_defined Sample.vwDP Sample.spot
                    Sample.bare_step Sample.tip) RIGHT eq_refl).
  - exact (proj2 (placement_defined Sample.vwDP Sample.spot
                    Sample.stray_step Sample.tip) "CENTER"%string eq_refl).
Defined.

(** ** Defaults *)

(** C9: the overlay takes [SPOTLIGHT] for a step without [shape], [SPOT]
    for one without [alignTo], [SLIDING] for one without [motion], and 0
    for each of [borderWidth], [horizontalRadius] and [verticalRadius]
    that is left out, alone or with the whole of [shapeProperties]; an
    attribute that the step supplies is used as given. *)
Theorem step_defaults {ReactNode : Type} (step : TourStep.t ReactNode) :
  TourOverlay.shape step =
    match TourStep.shape step with Some s => s | None => SPOTLIGHT end
  /\ TourOverlay.align step =
       match TourStep.alignTo step with Some a => a | None => SPOT end
  /\ TourOverlay.motion step =
       match TourStep.motion step with Some m => m | None => SLIDING end
  /\ match TourStep.shapeProperties step with
     | None =>
         TourOverlay.borderWidth step = 0
         /\ TourOverlay.horizontalRadius step = 0
         /\ TourOverlay.verticalRadius step = 0
     | Some given =>
         TourOverlay.borderWidth step =
           match RectangleProps.borderWidth given with
           | Some b => b
           | None => 0
           end
         /\ TourOverlay.horizontalRadius step =
              match RectangleProps.horizontalRadius given with
              | Some h => h
              | None => 0
              end
         /\ TourOverlay.verticalRadius step =
              match RectangleProps.verticalRadius given with
              | Some v => v
              | None => 0
              end
     end.
Proof.
  unfold TourOverlay.shape, TourOverlay.align, TourOverlay.motion,
    TourOverlay.borderWidth, TourOverlay.horizontalRadius,
    TourOverlay.verticalRadius.
  repeat split.
  destruct (TourStep.shapeProperties step) as [given |]; repeat split.
Qed.

(** A step that leaves everything out is shown as a sliding circle, and
    its rectangle has no border. *)
Example bare_step_rendering :
  TourOverlay.MaskElement Sample.spot Sample.bare_step =
    AnimatedCircle
      {| Circle.r := Animated radius;
         Circle.cx := Animated center_x;
         Circle.cy := Animated center_y;
         Circle.opacity := None;
         Circle.fill := "black" |}
  /\ TourOverlay.rectWidth Sample.spot Sample.bare_step == width Sample.spot
  /\ TourOverlay.rectX Sample.spot Sample.bare_step == x Sample.spot.
Proof.
  repeat split.
Qed.

(** ** The guard *)

(** C10: when the tour's [spot] is undefined or its [current] is
    undefined, the overlay returns [null]: nothing is rendered, so no
    mask and no tooltip placement, and no step's [render] is called. *)
Theorem render_guard {ReactNode : Type} (vwDP : Q -> Q)
        (props : TourOverlay.TourOverlayProps ReactNode)
        (hooks : option (TourOverlay.Hooks ReactNode)) :
  SpotlightTourCtx.spot (TourOverlay.tour props) = None
  \/ SpotlightTourCtx.current (TourOverlay.tour props) = None ->
  TourOverlay.output (TourOverlay.render vwDP props hooks)
  = TourOverlay.Null
  /\ TourOverlay.renderCalls (TourOverlay.render vwDP props hooks) = []
  /\ delivered_mask (TourOverlay.render vwDP props hooks) = None.
Proof.
  unfold delivered_mask, TourOverlay.render.
  intros [H | H]; rewrite H.
  - repeat split.
  - destruct (SpotlightTourCtx.spot (TourOverlay.tour props));
      repeat split.
Qed.

Lemma render_guard_witness :
  TourOverlay.output
    (TourOverlay.render Sample.vwDP
       (Sample.props None (Some Sample.spot) [Sample.bottom_step] None)
       None)
  = TourOverlay.Null
  /\ TourOverlay.renderCalls
       (TourOverlay.render Sample.vwDP
          (Sample.props None (Some Sample.spot) [Sample.bottom_step] None)
          None) = []
  /\ delivered_mask
       (TourOverlay.render Sample.vwDP
          (Sample.props None (Some Sample.spot) [Sample.bottom_step] None)
          None) = None.
Proof.
  exact (render_guard Sample.vwDP
           (Sample.props None (Some Sample.spot) [Sample.bottom_step] None)
           None (or_intror eq_refl)).
Defined.

(** Past the guard, with a step in its state, the overlay renders and
    calls that step's [render] once; the index 0 passes the guard. *)
Example render_first_step :
  TourOverlay.renderCalls
    (TourOverlay.render Sample.vwDP
       (Sample.props (Some 0%Z) (Some Sample.spot)
          [Sample.bottom_step; Sample.bare_step] None)
       None)
  = [ {| RenderProps.current := 0;
         RenderProps.isFirst := true;
         RenderProps.isLast := false |} ].
Proof.
  reflexivity.
Qed.

(** ** The effect *)

(** When [spot] or [current] has changed, the effect takes the step at
    [current] into the state and leaves the tooltip's style; the timeout
    it sets then drops the style, leaves the step, and starts [moveIn]
    towards the geometry of the render the effect belongs to. *)
Lemma effect_then_timeout {ReactNode : Type} (spot : LayoutRectangle)
      (current : Z) (steps : list (TourStep.t ReactNode))
      (step : TourStep.t ReactNode) (hooks : TourOverlay.Hooks ReactNode) :
  (TourOverlay.tourStep (TourOverlay.effect current steps hooks)
   = Js.index steps current
   /\ TourOverlay.tipStyle (TourOverlay.effect current steps hooks)
      = TourOverlay.tipStyle hooks)
  /\ (TourOverlay.tourStep
        (fst (TourOverlay.effect_timeout spot step hooks))
      = TourOverlay.tourStep hooks
      /\ TourOverlay.tipStyle
           (fst (TourOverlay.effect_timeout spot step hooks)) = None
      /\ snd (TourOverlay.effect_timeout spot step hooks)
         = TourOverlay.moveIn spot step).
Proof.
  repeat split.
Qed.

(** * Further properties *)

(** ** Rounding, continued *)






(** ** Placement, continued *)


(** The rectangle of the mask has the centre of the spot, whatever the
    border. *)
Lemma rect_centre {ReactNode : Type} (spot : LayoutRectangle)
      (step : TourStep.t ReactNode) :
  TourOverlay.rectX spot step + TourOverlay.rectWidth spot step / 2
  == TourOverlay.cx spot
  /\ TourOverlay.rectY spot step + TourOverlay.rectHeight spot step / 2
     == TourOverlay.cy spot.
Proof.
  unfold TourOverlay.rectX, TourOverlay.rectY, TourOverlay.rectWidth,
    TourOverlay.rectHeight, TourOverlay.cx, TourOverlay.cy.
  split; field.
Qed.

Lemma getRectangleTipStyles_member {ReactNode : Type} (vwDP : Q -> Q)
      (spot : LayoutRectangle) (step : TourStep.t ReactNode)
      (tip : LayoutRectangle) (p : Position) :
  TourStep.position step = member p ->
  exists style : ViewStyle,
    TourOverlay.getRectangleTipStyles vwDP spot step tip = Some style
    /\ left style =
         Js.Math_round
           (Table.rectangle_left p (TourOverlay.align step) (vwDP 100)
              (Js.Math_round
                 (TourOverlay.rectX spot step
                  + TourOverlay.rectWidth spot step / 2))
              (TourOverlay.rectX spot step)
              (TourOverlay.rectWidth spot step) (width tip))
    /\ top style =
         Js.Math_round
           (Table.rectangle_top p
              (Js.Math_round
                 (TourOverlay.rectY spot step
                  + TourOverlay.rectHeight spot step / 2))
              (TourOverlay.rectY spot step)
              (TourOverlay.rectHeight spot step) (height tip)).
Proof.
  intros Hp. unfold TourOverlay.getRectangleTipStyles. rewrite Hp.
  destruct p; eexists; (split; [reflexivity |]); simpl;
    destruct (TourOverlay.align step); split; reflexivity.
Qed.

(** X2: under the rectangle policy the centre is rounded before the
    tooltip's half size is taken off and the result is rounded again, so
    the tooltip is placed within one unit of the exact position of its
    row, the one computed from the centre of the spot. *)
Theorem rectangle_within_one {ReactNode : Type} (vwDP : Q -> Q)
        (spot : LayoutRectangle) (step : TourStep.t ReactNode)
        (tip : LayoutRectangle) (p : Position) :
  TourStep.position step = member p ->
  exists style : ViewStyle,
    TourOverlay.getRectangleTipStyles vwDP spot step tip = Some style
    /\ (let exact :=
          Table.rectangle_left p (TourOverlay.align step) (vwDP 100)
            (TourOverlay.cx spot) (TourOverlay.rectX spot step)
            (TourOverlay.rectWidth spot step) (width tip) in
        exact - 1 < left style /\ left style <= exact + 1)
    /\ (let exact :=
          Table.rectangle_top p (TourOverlay.cy spot)
            (TourOverlay.rectY spot step)
            (TourOverlay.rectHeight spot step) (height tip) in
        exact - 1 < top style /\ top style <= exact + 1).
Proof.
  intros Hp.
  destruct (getRectangleTipStyles_member vwDP spot step tip p Hp)
    as (style & Hs & Hl & Ht).
  exists style. split; [exact Hs |].
  rewrite Hl, Ht. clear Hs Hl Ht.
  destruct (rect_centre spot step) as [Hx Hy].
  pose proof (Math_round_nearest
                (TourOverlay.rectX spot step
                 + TourOverlay.rectWidth spot step / 2)) as [Hx1 Hx2].
  pose proof (Math_round_nearest
                (TourOverlay.rectY spot step
                 + TourOverlay.rectHeight spot step / 2)) as [Hy1 Hy2].
  set (rx := Js.Math_round
               (TourOverlay.rectX spot step
                + TourOverlay.rectWidth spot step / 2)) in *.
  set (ry := Js.Math_round
               (TourOverlay.rectY spot step
                + TourOverlay.rectHeight spot step / 2)) in *.
  split; cbv zeta.
  - pose proof (Math_round_nearest
                  (Table.rectangle_left p (TourOverlay.align step)
                     (vwDP 100) rx (TourOverlay.rectX spot step)
                     (TourOverlay.rectWidth spot step) (width tip)))
      as [H1 H2].
    destruct p, (TourOverlay.align step); simpl in *; split; lra.
  - pose proof (Math_round_nearest
                  (Table.rectangle_top p ry (TourOverlay.rectY spot step)
                     (TourOverlay.rectHeight spot step) (height tip)))
      as [H1 H2].
    destruct p; simpl in *; split; lra.
Qed.

Lemma rectangle_within_one_witness :
  exists style : ViewStyle,
    TourOverlay.getRectangleTipStyles Sample.vwDP Sample.unit_spot
      (Sample.step (member BOTTOM) None None None None) Sample.small_tip
    = Some style
    /\ (let exact :=
          Table.rectangle_left BOTTOM SPOT (Sample.vwDP 100)
            (TourOverlay.cx Sample.unit_spot)
            (TourOverlay.rectX Sample.unit_spot Sample.bare_step)
            (TourOverlay.rectWidth Sample.unit_spot Sample.bare_step)
            (1 # 2) in
        exact - 1 < left style /\ left style <= exact + 1)
    /\ (let exact :=
          Table.rectangle_top BOTTOM (TourOverlay.cy Sample.unit_spot)
            (TourOverlay.rectY Sample.unit_spot Sample.bare_step)
            (TourOverlay.rectHeight Sample.unit_spot Sample.bare_step)
            (1 # 2) in
        exact - 1 < top style /\ top style <= exact + 1).
Proof.
  exact (rectangle_within_one Sample.vwDP Sample.unit_spot
           (Sample.step (member BOTTOM) None None None None)
           Sample.small_tip BOTTOM eq_refl).
Defined.

(** X3: with [alignTo] at [CENTER], a tooltip above or below the spot
    has a [left] that does not depend on the spot, the shape or the
    border: it is the same under both policies, and it centres the
    tooltip in the viewport to within half a unit. *)
Theorem centre_alignment {ReactNode : Type} (vwDP : Q -> Q)
        (spot spot' : LayoutRectangle) (step step' : TourStep.t ReactNode)
        (tip : LayoutRectangle) :
  TourOverlay.align step = CENTER ->
  TourOverlay.align step' = CENTER ->
  TourStep.position step = member BOTTOM
  \/ TourStep.position step = member TOP ->
  TourStep.position step' = member BOTTOM
  \/ TourStep.position step' = member TOP ->
  exists l : Q,
    option_map left (TourOverlay.measureTip vwDP spot step tip) = Some l
    /\ option_map left (TourOverlay.measureTip vwDP spot' step' tip) = Some l
    /\ vwDP 100 / 2 - (1 # 2) < l + width tip / 2
    /\ l + width tip / 2 <= vwDP 100 / 2 + (1 # 2).
Proof.
  intros Ha Ha' Hp Hp'.
  exists (Js.Math_round ((vwDP 100 - width tip) / 2)).
  unfold TourOverlay.measureTip, TourOverlay.getSpotlightTipStyles,
    TourOverlay.getRectangleTipStyles.
  rewrite Ha, Ha'.
  split; [| split].
  - destruct Hp as [Hp | Hp]; rewrite Hp;
      now destruct (TourOverlay.shape step).
  - destruct Hp' as [Hp' | Hp']; rewrite Hp';
      now destruct (TourOverlay.shape step').
  - pose proof (Math_round_nearest ((vwDP 100 - width tip) / 2)) as [H1 H2].
    set (l := Js.Math_round _) in *.
    unfold Qdiv in *. split; lra.
Qed.

Lemma centre_alignment_witness :
  exists l : Q,
    option_map left
      (TourOverlay.measureTip Sample.vwDP Sample.spot
         Sample.rectangle_step Sample.tip) = Some l
    /\ option_map left
         (TourOverlay.measureTip Sample.vwDP Sample.unit_spot
            (Sample.step (member BOTTOM) None None (Some CENTER) None)
            Sample.tip) = Some l
    /\ Sample.vwDP 100 / 2 - (1 # 2) < l + width Sample.tip / 2
    /\ l + width Sample.tip / 2 <= Sample.vwDP 100 / 2 + (1 # 2).
Proof.
  exact (centre_alignment Sample.vwDP Sample.spot Sample.unit_spot
           Sample.rectangle_step
           (Sample.step (member BOTTOM) None None (Some CENTER) None)
           Sample.tip eq_refl eq_refl (or_intror eq_refl)
           (or_introl eq_refl)).
Defined.



(** ** The mask and the spot *)

Lemma r_cases (spot : LayoutRectangle) :
  (width spot <= height spot
   /\ TourOverlay.r spot == height spot / 2 * (115 # 100)
   /\ Qmax (width spot) (height spot) == height spot
   /\ Qmin (width spot) (height spot) == width spot)
  \/ (height spot <= width spot
      /\ TourOverlay.r spot == width spot / 2 * (115 # 100)
      /\ Qmax (width spot) (height spot) == width spot
      /\ Qmin (width spot) (height spot) == height spot).
Proof.
  unfold TourOverlay.r.
  destruct (Qlt_le_dec (height spot) (width spot)) as [H | H].
  - right. apply Qlt_le_weak in H.
    rewrite Math_max_Qmax, (Q.max_l _ _ H), (Q.min_r _ _ H).
    repeat split; try reflexivity. exact H.
  - left.
    rewrite Math_max_Qmax, (Q.max_r _ _ H), (Q.min_l _ _ H).
    repeat split; try reflexivity. exact H.
Qed.

(** The square of the radius, by the longer side. *)
Lemma r_square (spot : LayoutRectangle) :
  TourOverlay.r spot * TourOverlay.r spot
  == (13225 # 40000)
     * (Qmax (width spot) (height spot) * Qmax (width spot) (height spot)).
Proof.
  unfold TourOverlay.r. rewrite Math_max_Qmax. field.
Qed.

(** The square of the distance from the centre to a corner. *)
Lemma corner_square (spot : LayoutRectangle) (right_side bottom_side : bool) :
  (x spot + (if right_side then width spot else 0) - TourOverlay.cx spot)
  * (x spot + (if right_side then width spot else 0) - TourOverlay.cx spot)
  + (y spot + (if bottom_side then height spot else 0) - TourOverlay.cy spot)
    * (y spot + (if bottom_side then height spot else 0)
       - TourOverlay.cy spot)
  == (1 # 4) * (width spot * width spot + height spot * height spot).
Proof.
  unfold TourOverlay.cx, TourOverlay.cy.
  destruct right_side, bottom_side; field.
Qed.

Lemma square_le (a b : Q) : 0 <= a -> a <= b -> a * a <= b * b.
Proof.
  intros Ha Hab. apply Qmult_le_compat_nonneg; split; assumption.
Qed.

(** X5: the spotlight reaches the middle of every side of a spot of
    non-negative size, and takes in a corner of the spot exactly when
    the square of the shorter side is at most 129/400 of the square of
    the longer one (a shorter side of about 0.57 of the longer); so the
    corners of a square spot of positive side are outside the
    spotlight. *)
Theorem spotlight_cover (spot : LayoutRectangle) :
  0 <= width spot -> 0 <= height spot ->
  (in_spotlight spot (x spot) (TourOverlay.cy spot)
   /\ in_spotlight spot (x spot + width spot) (TourOverlay.cy spot)
   /\ in_spotlight spot (TourOverlay.cx spot) (y spot)
   /\ in_spotlight spot (TourOverlay.cx spot) (y spot + height spot))
  /\ (forall right_side bottom_side : bool,
         in_spotlight spot
           (x spot + (if right_side then width spot else 0))
           (y spot + (if bottom_side then height spot else 0))
         <-> 400 * (Qmin (width spot) (height spot)
                    * Qmin (width spot) (height spot))
             <= 129 * (Qmax (width spot) (height spot)
                       * Qmax (width spot) (height spot)))
  /\ (width spot == height spot -> 0 < width spot ->
      forall right_side bottom_side : bool,
        ~ in_spotlight spot
            (x spot + (if right_side then width spot else 0))
            (y spot + (if bottom_side then height spot else 0))).
Proof.
  intros Hw Hh.
  assert (Hcorner :
            forall right_side bottom_side : bool,
              in_spotlight spot
                (x spot + (if right_side then width spot else 0))
                (y spot + (if bottom_side then height spot else 0))
              <-> 400 * (Qmin (width spot) (height spot)
                         * Qmin (width spot) (height spot))
                  <= 129 * (Qmax (width spot) (height spot)
                            * Qmax (width spot) (height spot))).
  { intros a b. unfold in_spotlight.
    rewrite corner_square, r_square.
    destruct (r_cases spot) as [(_ & _ & Hmax & Hmin)
                               | (_ & _ & Hmax & Hmin)];
      rewrite Hmax, Hmin;
      set (ww := width spot * width spot);
      set (hh := height spot * height spot);
      split; intros H; lra. }
  split; [| split].
  - unfold in_spotlight. rewrite r_square.
    assert (Hmw : width spot * width spot
                  <= Qmax (width spot) (height spot)
                     * Qmax (width spot) (height spot))
      by (apply square_le; [exact Hw | apply Q.le_max_l]).
    assert (Hmh : height spot * height spot
                  <= Qmax (width spot) (height spot)
                     * Qmax (width spot) (height spot))
      by (apply square_le; [exact Hh | apply Q.le_max_r]).
    set (mm := Qmax (width spot) (height spot)
               * Qmax (width spot) (height spot)) in *.
    assert (El : (x spot - TourOverlay.cx spot)
                 * (x spot - TourOverlay.cx spot)
                 + (TourOverlay.cy spot - TourOverlay.cy spot)
                   * (TourOverlay.cy spot - TourOverlay.cy spot)
                 == (1 # 4) * (width spot * width spot))
      by (unfold TourOverlay.cx; field).
    assert (Er : (x spot + width spot - TourOverlay.cx spot)
                 * (x spot + width spot - TourOverlay.cx spot)
                 + (TourOverlay.cy spot - TourOverlay.cy spot)
                   * (TourOverlay.cy spot - TourOverlay.cy spot)
                 == (1 # 4) * (width spot * width spot))
      by (unfold TourOverlay.cx; field).
    assert (Et : (TourOverlay.cx spot - TourOverlay.cx spot)
                 * (TourOverlay.cx spot - TourOverlay.cx spot)
                 + (y spot - TourOverlay.cy spot)
                   * (y spot - TourOverlay.cy spot)
                 == (1 # 4) * (height spot * height spot))
      by (unfold TourOverlay.cy; field).
    assert (Eb : (TourOverlay.cx spot - TourOverlay.cx spot)
                 * (TourOverlay.cx spot - TourOverlay.cx spot)
                 + (y spot + height spot - TourOverlay.cy spot)
                   * (y spot + height spot - TourOverlay.cy spot)
                 == (1 # 4) * (height spot * height spot))
      by (unfold TourOverlay.cy; field).
    rewrite El, Er, Et, Eb.
    pose proof (Qmult_le_0_compat _ _ Hw Hw) as Hww.
    pose proof (Qmult_le_0_compat _ _ Hh Hh) as Hhh.
    set (ww := width spot * width spot) in *.
    set (hh := height spot * height spot) in *.
    repeat split; lra.
  - exact Hcorner.
  - intros Hsq Hpos a b Hin.
    apply Hcorner in Hin.
    rewrite Hsq, Q.max_id, Q.min_id in Hin.
    assert (Hpos' : 0 < height spot) by (now rewrite <- Hsq).
    pose proof (Qmult_lt_0_compat _ _ Hpos' Hpos') as Hhh.
    set (hh := height spot * height spot) in *.
    lra.
Qed.

Lemma spotlight_cover_witness :
  ~ in_spotlight Sample.spot (x Sample.spot) (y Sample.spot).
Proof.
  intros Hin.
  refine (proj2 (proj2 (spotlight_cover Sample.spot _ _)) _ _
                false false _).
  - discriminate.
  - discriminate.
  - reflexivity.
  - reflexivity.
  - exact Hin.
Defined.



(** ** The mask at rest *)

(** X7: when [moveIn] of a render has run to its end, the mask's element
    of that render has the geometry the render computed, whichever the
    motion: a circle of radius [r] about [(cx, cy)] for a spotlight, a
    rectangle with corner [(rectX, rectY)] otherwise; and an element that
    fades has come to opacity 1.  No attribute of the element is an
    animated value that [moveIn] leaves alone. *)
Theorem mask_at_rest {ReactNode : Type} (spot : LayoutRectangle)
        (step : TourStep.t ReactNode) :
  let rest := at_rest (TourOverlay.moveIn spot step) in
  match TourOverlay.MaskElement spot step with
  | AnimatedCircle p =>
      TourOverlay.shape step = SPOTLIGHT
      /\ rest (Circle.r p) = Some (TourOverlay.r spot)
      /\ rest (Circle.cx p) = Some (TourOverlay.cx spot)
      /\ rest (Circle.cy p) = Some (TourOverlay.cy spot)
      /\ match Circle.opacity p with
         | Some o => TourOverlay.motion step = FADING /\ rest o = Some 1
         | None => TourOverlay.motion step = SLIDING
         end
  | AnimatedRect p =>
      TourOverlay.shape step = RECTANGLE
      /\ rest (Rect.x p) = Some (TourOverlay.rectX spot step)
      /\ rest (Rect.y p) = Some (TourOverlay.rectY spot step)
      /\ match Rect.opacity p with
         | Some o => TourOverlay.motion step = FADING /\ rest o = Some 1
         | None => TourOverlay.motion step = SLIDING
         end
  end.
Proof.
  unfold TourOverlay.MaskElement, TourOverlay.circleProperties,
    TourOverlay.rectProperties.
  destruct (TourOverlay.shape step), (TourOverlay.motion step);
    simpl; repeat split.
Qed.

(** ** Renders *)

Lemma index_None {A : Type} (xs : list A) (i : Z) :
  Js.index xs i = None
  <-> (i < 0)%Z \/ (Z.of_nat (List.length xs) <= i)%Z.
Proof.
  unfold Js.index.
  destruct (i <? 0)%Z eqn:E.
  - apply Z.ltb_lt in E. split; auto.
  - apply Z.ltb_ge in E. rewrite nth_error_None. split.
    + intros H. right. lia.
    + intros [H | H]; lia.
Qed.

Lemma index_Some {A : Type} (xs : list A) (i : Z) :
  (exists a : A, Js.index xs i = Some a)
  <-> (0 <= i < Z.of_nat (List.length xs))%Z.
Proof.
  split.
  - intros [a Ha].
    destruct (Z_lt_le_dec i 0) as [H | H];
      [| destruct (Z_lt_le_dec i (Z.of_nat (List.length xs))) as [H' | H']];
      try lia.
    + assert (N : Js.index xs i = None) by (apply index_None; auto).
      congruence.
    + assert (N : Js.index xs i = None) by (apply index_None; auto).
      congruence.
  - intros H. destruct (Js.index xs i) as [a |] eqn:E; [now exists a |].
    apply index_None in E. lia.
Qed.

(** X8: the render that mounts the component returns [null] when the
    tour has no spot or no current index; otherwise it renders when the
    index is one of [0 .. steps.length - 1], and throws when it is not,
    as it does for every index when there are no steps. *)
Theorem mount_outcome {ReactNode : Type} (vwDP : Q -> Q)
        (props : TourOverlay.TourOverlayProps ReactNode) :
  let tour := TourOverlay.tour props in
  let out := TourOverlay.output (TourOverlay.render vwDP props None) in
  (out = TourOverlay.Null
   <-> SpotlightTourCtx.spot tour = None
       \/ SpotlightTourCtx.current tour = None)
  /\ (out = TourOverlay.Throws
      <-> exists (s : LayoutRectangle) (c : Z),
          SpotlightTourCtx.spot tour = Some s
          /\ SpotlightTourCtx.current tour = Some c
          /\ ((c < 0)%Z
              \/ (Z.of_nat (List.length (SpotlightTourCtx.steps tour))
                  <= c)%Z))
  /\ ((exists v, out = TourOverlay.Rendered v)
      <-> exists (s : LayoutRectangle) (c : Z),
          SpotlightTourCtx.spot tour = Some s
          /\ SpotlightTourCtx.current tour = Some c
          /\ (0 <= c
              < Z.of_nat (List.length (SpotlightTourCtx.steps tour)))%Z).
Proof.
  cbv zeta. unfold TourOverlay.render.
  destruct (SpotlightTourCtx.spot (TourOverlay.tour props)) as [s |];
    [destruct (SpotlightTourCtx.current (TourOverlay.tour props))
      as [c |] |].
  - cbn [TourOverlay.tourStep].
    destruct (Js.index (SpotlightTourCtx.steps (TourOverlay.tour props)) c)
      as [step |] eqn:E; cbn [TourOverlay.output].
    + assert (Hc : (0 <= c
                    < Z.of_nat
                        (List.length
                           (SpotlightTourCtx.steps
                              (TourOverlay.tour props))))%Z)
        by (apply index_Some; eauto).
      split; [| split].
      * split; [discriminate | intros [H | H]; discriminate].
      * split; [discriminate |].
        intros (s' & c' & _ & Hc' & Hr). inversion Hc'; subst. lia.
      * split; [| eauto].
        intros _. exists s, c. auto.
    + apply index_None in E.
      split; [| split].
      * split; [discriminate | intros [H | H]; discriminate].
      * split; [| reflexivity].
        intros _. exists s, c. auto.
      * split; [intros [v H]; discriminate |].
        intros (s' & c' & _ & Hc' & Hr). inversion Hc'; subst. lia.
  - cbn [TourOverlay.output]. split; [| split].
    + split; auto.
    + split; [discriminate |].
      intros (s' & c' & _ & Hc' & _). discriminate.
    + split; [intros [v H]; discriminate |].
      intros (s' & c' & _ & Hc' & _). discriminate.
  - cbn [TourOverlay.output]. split; [| split].
    + split; auto.
    + split; [discriminate |].
      intros (s' & c' & Hs' & _). discriminate.
    + split; [intros [v H]; discriminate |].
      intros (s' & c' & Hs' & _). discriminate.
Qed.

(** A render with a spot, an index and a step in its state, in full. *)
Lemma render_with_step {ReactNode : Type} (vwDP : Q -> Q)
      (props : TourOverlay.TourOverlayProps ReactNode)
      (h : TourOverlay.Hooks ReactNode) (s : LayoutRectangle) (c : Z)
      (step : TourStep.t ReactNode) :
  SpotlightTourCtx.spot (TourOverlay.tour props) = Some s ->
  SpotlightTourCtx.current (TourOverlay.tour props) = Some c ->
  TourOverlay.tourStep h = Some step ->
  let steps := SpotlightTourCtx.steps (TourOverlay.tour props) in
  let call :=
    {| RenderProps.current := c;
       RenderProps.isFirst := (c =? 0)%Z;
       RenderProps.isLast := TourOverlay.isLastStep (Some c) steps |} in
  TourOverlay.render vwDP props (Some h) =
    {| TourOverlay.output :=
         TourOverlay.Rendered
           {| TourOverlay.maskElement := TourOverlay.MaskElement s step;
              TourOverlay.rectFill :=
                TourOverlay.color props ?? color_string "black";
              TourOverlay.rectOpacity :=
                TourOverlay.opacity props ?? a_number (45 # 100);
              TourOverlay.onPress :=
                TourOverlay.backdropPressHandler
                  (TourOverlay.shouldContinueOnBackdropPress props ?? false)
                  (TourOverlay.isLastStep (Some c) steps);
              TourOverlay.onLayout := TourOverlay.measureTip vwDP s step;
              TourOverlay.tipViewStyle :=
                (TourOverlay.tipStyle h, Animated componentOpacity);
              TourOverlay.children := TourStep.render step call |};
       TourOverlay.renderCalls := [call] |}.
Proof.
  intros Hs Hc Ht. cbv zeta. unfold TourOverlay.render.
  rewrite Hs, Hc, Ht. reflexivity.
Qed.

(** What a render that returned an element tree was given. *)
Lemma rendered_inv {ReactNode : Type} (vwDP : Q -> Q)
      (props : TourOverlay.TourOverlayProps ReactNode)
      (hooks : option (TourOverlay.Hooks ReactNode))
      (v : TourOverlay.View ReactNode) :
  TourOverlay.output (TourOverlay.render vwDP props hooks)
  = TourOverlay.Rendered v ->
  exists (s : LayoutRectangle) (c : Z) (step : TourStep.t ReactNode)
         (h : TourOverlay.Hooks ReactNode),
    SpotlightTourCtx.spot (TourOverlay.tour props) = Some s
    /\ SpotlightTourCtx.current (TourOverlay.tour props) = Some c
    /\ TourOverlay.tourStep h = Some step
    /\ TourOverlay.render vwDP props hooks
       = TourOverlay.render vwDP props (Some h).
Proof.
  unfold TourOverlay.render.
  destruct (SpotlightTourCtx.spot (TourOverlay.tour props)) as [s |];
    [| discriminate].
  destruct (SpotlightTourCtx.current (TourOverlay.tour props)) as [c |];
    [| discriminate].
  destruct hooks as [h |].
  - destruct (TourOverlay.tourStep h) as [step |] eqn:E; [| discriminate].
    intros _. exists s, c, step, h. rewrite E. auto.
  - cbn [TourOverlay.tourStep].
    destruct (Js.index _ c) as [step |] eqn:E; [| discriminate].
    intros _.
    exists s, c, step,
      {| TourOverlay.tourStep := Some step; TourOverlay.tipStyle := None |}.
    cbn [TourOverlay.tourStep TourOverlay.tipStyle]. auto.
Qed.

(** The step a render that returned an element tree was made with: the
    one in the state, and on the mounting render the one at the current
    index. *)
Lemma render_state_step {ReactNode : Type} (vwDP : Q -> Q)
      (props : TourOverlay.TourOverlayProps ReactNode)
      (hooks : option (TourOverlay.Hooks ReactNode))
      (v : TourOverlay.View ReactNode) :
  TourOverlay.output (TourOverlay.render vwDP props hooks)
  = TourOverlay.Rendered v ->
  exists (s : LayoutRectangle) (c : Z) (step : TourStep.t ReactNode)
         (h : TourOverlay.Hooks ReactNode),
    SpotlightTourCtx.spot (TourOverlay.tour props) = Some s
    /\ SpotlightTourCtx.current (TourOverlay.tour props) = Some c
    /\ TourOverlay.tourStep h = Some step
    /\ match hooks with
       | Some h' => h = h'
       | None =>
           Js.index (SpotlightTourCtx.steps (TourOverlay.tour props)) c
           = Some step
       end
    /\ TourOverlay.render vwDP props hooks
       = TourOverlay.render vwDP props (Some h).
Proof.
  unfold TourOverlay.render.
  destruct (SpotlightTourCtx.spot (TourOverlay.tour props)) as [s |];
    [| discriminate].
  destruct (SpotlightTourCtx.current (TourOverlay.tour props)) as [c |];
    [| discriminate].
  destruct hooks as [h |].
  - destruct (TourOverlay.tourStep h) as [step |] eqn:E; [| discriminate].
    intros _. exists s, c, step, h. rewrite E. auto.
  - cbn [TourOverlay.tourStep].
    destruct (Js.index _ c) as [step |] eqn:E; [| discriminate].
    intros _.
    exists s, c, step,
      {| TourOverlay.tourStep := Some step; TourOverlay.tipStyle := None |}.
    cbn [TourOverlay.tourStep TourOverlay.tipStyle]. auto.
Qed.

(** X9: a render calls a step's [render] once when it returns an element
    tree and not at all otherwise.  The step is the one held in the
    state, which on the mounting render is the one at the current index;
    the call is told the tour's current index, [isFirst] exactly at
    index 0 and [isLast] exactly at index [steps.length - 1], and what
    it returns is the tooltip's content. *)
Theorem render_calls {ReactNode : Type} (vwDP : Q -> Q)
        (props : TourOverlay.TourOverlayProps ReactNode)
        (hooks : option (TourOverlay.Hooks ReactNode)) :
  let steps := SpotlightTourCtx.steps (TourOverlay.tour props) in
  let out := TourOverlay.render vwDP props hooks in
  match TourOverlay.output out with
  | TourOverlay.Rendered v =>
      exists (call : RenderProps.t) (step : TourStep.t ReactNode),
        TourOverlay.renderCalls out = [call]
        /\ SpotlightTourCtx.current (TourOverlay.tour props)
           = Some (RenderProps.current call)
        /\ (RenderProps.isFirst call = true
            <-> RenderProps.current call = 0%Z)
        /\ (RenderProps.isLast call = true
            <-> RenderProps.current call
                = (Z.of_nat (List.length steps) - 1)%Z)
        /\ match hooks with
           | Some h => TourOverlay.tourStep h = Some step
           | None => Js.index steps (RenderProps.current call) = Some step
           end
        /\ TourOverlay.children v = TourStep.render step call
  | _ => TourOverlay.renderCalls out = []
  end.
Proof.
  cbv zeta.
  destruct (TourOverlay.output (TourOverlay.render vwDP props hooks))
    as [ | | v] eqn:E.
  - revert E. unfold TourOverlay.render.
    destruct (SpotlightTourCtx.spot (TourOverlay.tour props));
      [| reflexivity].
    destruct (SpotlightTourCtx.current (TourOverlay.tour props));
      [| reflexivity].
    destruct (TourOverlay.tourStep _); [discriminate | reflexivity].
  - revert E. unfold TourOverlay.render.
    destruct (SpotlightTourCtx.spot (TourOverlay.tour props));
      [| reflexivity].
    destruct (SpotlightTourCtx.current (TourOverlay.tour props));
      [| reflexivity].
    destruct (TourOverlay.tourStep _); [discriminate | reflexivity].
  - destruct (render_state_step vwDP props hooks v E)
      as (s & c & step & h & Hs & Hc & Ht & Hh & Hr).
    rewrite Hr in E |- *.
    rewrite (render_with_step vwDP props h s c step Hs Hc Ht) in E |- *.
    cbn [TourOverlay.output TourOverlay.renderCalls] in *.
    inversion E; subst v; clear E.
    eexists. exists step. split; [reflexivity |].
    cbn [RenderProps.current RenderProps.isFirst RenderProps.isLast
         TourOverlay.children].
    split; [exact Hc |].
    split; [apply Z.eqb_eq |].
    split; [apply Z.eqb_eq |].
    split; [| reflexivity].
    destruct hooks as [h' |]; [subst h'; exact Ht | exact Hh].
Qed.

(** X10: a press on the backdrop never calls [previous()], and when
    [shouldContinueOnBackdropPress] is true it calls [stop()] exactly
    when the step's [render] was told [isLast], and [next()] exactly
    when it was not. *)
Theorem backdrop_agrees_with_isLast {ReactNode : Type} (vwDP : Q -> Q)
        (props : TourOverlay.TourOverlayProps ReactNode)
        (hooks : option (TourOverlay.Hooks ReactNode))
        (v : TourOverlay.View ReactNode) :
  TourOverlay.output (TourOverlay.render vwDP props hooks)
  = TourOverlay.Rendered v ->
  TourOverlay.onPress v <> Some previous
  /\ (TourOverlay.shouldContinueOnBackdropPress props = Some true ->
      exists call : RenderProps.t,
        TourOverlay.renderCalls (TourOverlay.render vwDP props hooks)
        = [call]
        /\ TourOverlay.onPress v
           = Some (if RenderProps.isLast call then stop else next)).
Proof.
  intros E.
  destruct (rendered_inv vwDP props hooks v E)
    as (s & c & step & h & Hs & Hc & Ht & Hr).
  rewrite Hr in E |- *.
  rewrite (render_with_step vwDP props h s c step Hs Hc Ht) in E |- *.
  cbn [TourOverlay.output TourOverlay.renderCalls] in *.
  inversion E; subst v; clear E.
  cbn [TourOverlay.onPress]. unfold TourOverlay.backdropPressHandler.
  split.
  - destruct (negb _); [discriminate |].
    match goal with
    | |- Some (if ?b then _ else _) <> _ => destruct b
    end; discriminate.
  - intros Hsc. rewrite Hsc. eexists. split; reflexivity.
Qed.

Lemma backdrop_agrees_with_isLast_witness :
  match
    TourOverlay.output
      (TourOverlay.render Sample.vwDP
         (Sample.props (Some 0%Z) (Some Sample.spot)
            [Sample.bottom_step; Sample.bare_step] (Some true))
         None)
  with
  | TourOverlay.Rendered v =>
      TourOverlay.onPress v <> Some previous
      /\ TourOverlay.onPress v = Some next
  | _ => False
  end.
Proof.
  destruct (TourOverlay.output _) as [ | | v] eqn:Hv.
  - discriminate Hv.
  - discriminate Hv.
  - destruct (backdrop_agrees_with_isLast Sample.vwDP
                (Sample.props (Some 0%Z) (Some Sample.spot)
                   [Sample.bottom_step; Sample.bare_step] (Some true))
                None v Hv) as [Hn Hc].
    split; [exact Hn |].
    destruct (Hc eq_refl) as (call & Hcalls & Hpress).
    inversion Hcalls; subst call. exact Hpress.
Defined.

(** ** From one step to the next *)

(** X11: a render shows the step held in the component's state, not the
    step at the tour's current index.  After the index has changed, the
    render before the effect shows the previous step's mask and calls the
    previous step's [render] with the new index.  The effect takes the
    step at the current index into the state and keeps the tooltip's
    style, so the render after it shows the new step with the style
    computed for the previous one.  The timeout then drops the style and
    starts [moveIn] towards the geometry of the render the effect belongs
    to, the one of the previous step, and the render after it shows the
    new step, unstyled. *)
Theorem step_change {ReactNode : Type} (vwDP : Q -> Q)
        (props : TourOverlay.TourOverlayProps ReactNode)
        (h : TourOverlay.Hooks ReactNode) (s : LayoutRectangle) (c : Z)
        (old new : TourStep.t ReactNode) :
  let steps := SpotlightTourCtx.steps (TourOverlay.tour props) in
  let call :=
    {| RenderProps.current := c;
       RenderProps.isFirst := (c =? 0)%Z;
       RenderProps.isLast := TourOverlay.isLastStep (Some c) steps |} in
  let after_effect := TourOverlay.effect c steps h in
  let after_timeout := TourOverlay.effect_timeout s old after_effect in
  SpotlightTourCtx.spot (TourOverlay.tour props) = Some s ->
  SpotlightTourCtx.current (TourOverlay.tour props) = Some c ->
  TourOverlay.tourStep h = Some old ->
  Js.index steps c = Some new ->
  (exists v : TourOverlay.View ReactNode,
      rendered (TourOverlay.render vwDP props (Some h)) = Some v
      /\ TourOverlay.maskElement v = TourOverlay.MaskElement s old
      /\ TourOverlay.children v = TourStep.render old call
      /\ fst (TourOverlay.tipViewStyle v) = TourOverlay.tipStyle h)
  /\ (exists v : TourOverlay.View ReactNode,
         rendered (TourOverlay.render vwDP props (Some after_effect))
         = Some v
         /\ TourOverlay.maskElement v = TourOverlay.MaskElement s new
         /\ TourOverlay.children v = TourStep.render new call
         /\ fst (TourOverlay.tipViewStyle v) = TourOverlay.tipStyle h)
  /\ snd after_timeout = TourOverlay.moveIn s old
  /\ (exists v : TourOverlay.View ReactNode,
         rendered
           (TourOverlay.render vwDP props (Some (fst after_timeout)))
         = Some v
         /\ TourOverlay.maskElement v = TourOverlay.MaskElement s new
         /\ TourOverlay.children v = TourStep.render new call
         /\ fst (TourOverlay.tipViewStyle v) = None).
Proof.
  cbv zeta. intros Hs Hc Ht Hn. split; [| split; [| split]].
  - unfold rendered.
    rewrite (render_with_step vwDP props h s c old Hs Hc Ht).
    cbn [TourOverlay.output]. eexists. split; [reflexivity |].
    repeat split.
  - unfold rendered.
    rewrite (render_with_step vwDP props _ s c new Hs Hc);
      [| exact Hn].
    cbn [TourOverlay.output]. eexists. split; [reflexivity |].
    repeat split.
  - reflexivity.
  - unfold rendered.
    rewrite (render_with_step vwDP props _ s c new Hs Hc);
      [| exact Hn].
    cbn [TourOverlay.output]. eexists. split; [reflexivity |].
    repeat split.
Qed.

Lemma step_change_witness :
  exists v : TourOverlay.View string,
    rendered
      (TourOverlay.render Sample.vwDP
         (Sample.props (Some 1%Z) (Some Sample.spot)
            [Sample.bottom_step; Sample.rectangle_step] None)
         (Some
            (TourOverlay.effect 1%Z
               [Sample.bottom_step; Sample.rectangle_step]
               {| TourOverlay.tourStep := Some Sample.bottom_step;
                  TourOverlay.tipStyle :=
                    TourOverlay.measureTip Sample.vwDP Sample.spot
                      Sample.bottom_step Sample.tip |}))) = Some v
    /\ TourOverlay.maskElement v
       = TourOverlay.MaskElement Sample.spot Sample.rectangle_step
    /\ fst (TourOverlay.tipViewStyle v)
       = TourOverlay.measureTip Sample.vwDP Sample.spot
           Sample.bottom_step Sample.tip.
Proof.
  destruct (step_change Sample.vwDP
              (Sample.props (Some 1%Z) (Some Sample.spot)
                 [Sample.bottom_step; Sample.rectangle_step] None)
              {| TourOverlay.tourStep := Some Sample.bottom_step;
                 TourOverlay.tipStyle :=
                   TourOverlay.measureTip Sample.vwDP Sample.spot
                     Sample.bottom_step Sample.tip |}
              Sample.spot 1%Z Sample.bottom_step Sample.rectangle_step
              eq_refl eq_refl eq_refl eq_refl)
    as (_ & (v & Hv & Hm & _ & Hst) & _).
  exists v. split; [exact Hv |]. split; [exact Hm | exact Hst].
Defined.

(** X12: when the tour's current index is outside [0 .. steps.length - 1]
    as the effect runs, the effect puts [undefined] into the state, and
    the render after it throws without calling any step's [render],
    whatever the state was before, and so does the render after the
    timeout. *)
Theorem step_out_of_range {ReactNode : Type} (vwDP : Q -> Q)
        (props : TourOverlay.TourOverlayProps ReactNode)
        (h : TourOverlay.Hooks ReactNode)
        (s : LayoutRectangle) (c : Z) (old : TourStep.t ReactNode) :
  let steps := SpotlightTourCtx.steps (TourOverlay.tour props) in
  let after_effect := TourOverlay.effect c steps h in
  let after_timeout := TourOverlay.effect_timeout s old after_effect in
  SpotlightTourCtx.spot (TourOverlay.tour props) = Some s ->
  SpotlightTourCtx.current (TourOverlay.tour props) = Some c ->
  (c < 0)%Z \/ (Z.of_nat (List.length steps) <= c)%Z ->
  TourOverlay.tourStep after_effect = None
  /\ TourOverlay.render vwDP props (Some after_effect)
     = {| TourOverlay.output := TourOverlay.Throws;
          TourOverlay.renderCalls := [] |}
  /\ TourOverlay.render vwDP props (Some (fst after_timeout))
     = {| TourOverlay.output := TourOverlay.Throws;
          TourOverlay.renderCalls := [] |}.
Proof.
  cbv zeta. intros Hs Hc Hr.
  apply index_None in Hr.
  unfold TourOverlay.effect_timeout, TourOverlay.effect,
    TourOverlay.setTipStyle, TourOverlay.setTourStep, TourOverlay.render.
  cbn [fst TourOverlay.tourStep]. rewrite Hs, Hc, Hr.
  repeat split.
Qed.

Lemma step_out_of_range_witness :
  TourOverlay.render Sample.vwDP
    (Sample.props (Some 2%Z) (Some Sample.spot)
       [Sample.bottom_step; Sample.bare_step] None)
    (Some (TourOverlay.effect 2%Z
             [Sample.bottom_step; Sample.bare_step]
             {| TourOverlay.tourStep := Some Sample.bare_step;
                TourOverlay.tipStyle := None |}))
  = {| TourOverlay.output := TourOverlay.Throws;
       TourOverlay.renderCalls := [] |}.
Proof.
  refine (proj1 (proj2 (step_out_of_range Sample.vwDP
                          (Sample.props (Some 2%Z) (Some Sample.spot)
                             [Sample.bottom_step; Sample.bare_step] None)
                          {| TourOverlay.tourStep := Some Sample.bare_step;
                             TourOverlay.tipStyle := None |}
                          Sample.spot 2%Z Sample.bare_step
                          eq_refl eq_refl _))).
  right. simpl. lia.
Defined.

(** X13: when the tooltip's layout is reported and its result is put
    into the state, the next render shows the same mask and gives the
    tooltip the style of the policy of the step's shape; the [left] and
    [top] of that style are integers. *)
Theorem layout_then_render {ReactNode : Type} (vwDP : Q -> Q)
        (props : TourOverlay.TourOverlayProps ReactNode)
        (h : TourOverlay.Hooks ReactNode)
        (v : TourOverlay.View ReactNode) (tip : LayoutRectangle) :
  rendered (TourOverlay.render vwDP props (Some h)) = Some v ->
  exists v' : TourOverlay.View ReactNode,
    rendered
      (TourOverlay.render vwDP props
         (Some (TourOverlay.setTipStyle (TourOverlay.onLayout v tip) h)))
    = Some v'
    /\ TourOverlay.maskElement v' = TourOverlay.maskElement v
    /\ TourOverlay.children v' = TourOverlay.children v
    /\ fst (TourOverlay.tipViewStyle v') = TourOverlay.onLayout v tip
    /\ (forall style : ViewStyle,
           fst (TourOverlay.tipViewStyle v') = Some style ->
           Js.isInteger (left style) = true
           /\ Js.isInteger (top style) = true).
Proof.
  unfold rendered. intros Hv.
  destruct (TourOverlay.output (TourOverlay.render vwDP props (Some h)))
    as [ | | v0] eqn:E; try discriminate.
  inversion Hv; subst v0; clear Hv.
  destruct (rendered_inv vwDP props (Some h) v E)
    as (s & c & step & h0 & Hs & Hc & _ & _).
  assert (Ht : exists step', TourOverlay.tourStep h = Some step').
  { revert E. unfold TourOverlay.render. rewrite Hs, Hc.
    destruct (TourOverlay.tourStep h) as [step' |];
      [eauto | discriminate]. }
  destruct Ht as [step' Ht].
  rewrite (render_with_step vwDP props h s c step' Hs Hc Ht) in E.
  cbn [TourOverlay.output] in E. inversion E; subst v; clear E.
  rewrite (render_with_step vwDP props _ s c step' Hs Hc);
    [| exact Ht].
  cbn [TourOverlay.output]. eexists. split; [reflexivity |].
  cbn [TourOverlay.maskElement TourOverlay.children
       TourOverlay.tipViewStyle TourOverlay.onLayout fst
       TourOverlay.setTipStyle TourOverlay.tipStyle].
  split; [reflexivity |]. split; [reflexivity |]. split; [reflexivity |].
  intros style Hstyle. unfold TourOverlay.measureTip in Hstyle.
  destruct (TourOverlay.shape step').
  - exact (getSpotlightTipStyles_integral _ _ _ _ _ Hstyle).
  - exact (getRectangleTipStyles_integral _ _ _ _ _ Hstyle).
Qed.

Lemma layout_then_render_witness :
  exists v' : TourOverlay.View string,
    rendered
      (TourOverlay.render Sample.vwDP
         (Sample.props (Some 0%Z) (Some Sample.spot) [Sample.bottom_step]
                       None)
         (Some {| TourOverlay.tourStep := Some Sample.bottom_step;
                  TourOverlay.tipStyle :=
                    TourOverlay.measureTip Sample.vwDP Sample.spot
                      Sample.bottom_step Sample.tip |}))
    = Some v'
    /\ fst (TourOverlay.tipViewStyle v')
       = TourOverlay.measureTip Sample.vwDP Sample.spot
           Sample.bottom_step Sample.tip.
Proof.
  destruct (layout_then_render Sample.vwDP
              (Sample.props (Some 0%Z) (Some Sample.spot)
                 [Sample.bottom_step] None)
              {| TourOverlay.tourStep := Some Sample.bottom_step;
                 TourOverlay.tipStyle := None |}
              _ Sample.tip eq_refl)
    as (v' & Hv' & _ & _ & Hst & _).
  exists v'. split; [exact Hv' | exact Hst].
Defined.

(** ** Fading the tooltip *)

(** X14: in every render that returns an element tree the tooltip's
    opacity is the animated value that [hideTip] runs to 0 and that
    [moveIn] runs back to 1; [hideTip] animates no other value, so it
    leaves the place and size of the mask alone. *)
Theorem hideTip_fades_tooltip {ReactNode : Type} (vwDP : Q -> Q)
        (props : TourOverlay.TourOverlayProps ReactNode)
        (hooks : option (TourOverlay.Hooks ReactNode))
        (v : TourOverlay.View ReactNode) :
  rendered (TourOverlay.render vwDP props hooks) = Some v ->
  at_rest [TourOverlay.hideTip_animation] (snd (TourOverlay.tipViewStyle v))
  = Some 0
  /\ (forall (spot : LayoutRectangle) (step : TourStep.t ReactNode),
         at_rest (TourOverlay.moveIn spot step)
           (snd (TourOverlay.tipViewStyle v)) = Some 1)
  /\ (forall a : AnimatedValue,
         a <> componentOpacity ->
         rest_value [TourOverlay.hideTip_animation] a = None).
Proof.
  unfold rendered. intros Hv.
  destruct (TourOverlay.output (TourOverlay.render vwDP props hooks))
    as [ | | v0] eqn:E; try discriminate.
  inversion Hv; subst v0; clear Hv.
  destruct (rendered_inv vwDP props hooks v E)
    as (s & c & step & h & Hs & Hc & Ht & Hr).
  rewrite Hr, (render_with_step vwDP props h s c step Hs Hc Ht) in E.
  cbn [TourOverlay.output] in E. inversion E; subst v; clear E.
  cbn [TourOverlay.tipViewStyle snd].
  split; [reflexivity |]. split; [reflexivity |].
  intros a Ha. destruct a; try reflexivity. congruence.
Qed.

Lemma hideTip_fades_tooltip_witness :
  rest_value [TourOverlay.hideTip_animation] radius = None
  /\ rest_value [TourOverlay.hideTip_animation] rectCoordinates_x = None.
Proof.
  pose proof (proj2 (proj2 (hideTip_fades_tooltip Sample.vwDP
                              (Sample.props (Some 0%Z) (Some Sample.spot)
                                 [Sample.bottom_step] None)
                              None _ eq_refl))) as H.
  split; apply H; discriminate.
Defined.
